(** * SUMO2GRAL: the orchestration of [main.py]

    A shallow embedding of [src/main.py] ([create_shapefile] and [main]) and
    the properties of the pipeline it drives: which collaborator is called,
    in which order, with which arguments, and what happens when one of them
    raises.

    The processors of the repository ([BuildingProcessor],
    [WeatherDataProcessor], [HighwayDataProcessor], [MapGenerator], [GRAL])
    and the libraries ([osmnx], [sumolib]) are collaborators of [main.py]:
    every call to them is an event whose outcome is chosen by an arbitrary
    environment [perform].  What [main.py] computes itself (the dispatch on
    [args.process], the two weather slices, the mean latitude, the f-strings,
    the two [try]/[except] blocks) is modelled in full. *)

From Stdlib Require Import ZArith.
From Stdlib Require Import Floats.SpecFloat.
From stdpp Require Import base list strings pretty.

Local Open Scope Z_scope.
Local Open Scope string_scope.
Local Open Scope list_scope.

(** ** Python floats: IEEE 754 binary64, round to nearest even *)

Module Float64.
Definition prec : Z := 53.
Definition emax : Z := 1024.

Definition float : Type := spec_float.

(** [float(z)] for an integer that is converted to a float. *)
Definition of_int (z : Z) : float := binary_normalize prec emax z 0 false.

(** [x + y] and [x / y] on floats (the divisor of [main.py] is never 0). *)
Definition add (x y : float) : float := SFadd prec emax x y.
Definition truediv (x y : float) : float := SFdiv prec emax x y.

(** The float a decimal literal [m * 10^-k] denotes, for [m] and [10^k]
    below [2^53]: the double nearest to the quotient. *)
Definition literal (m : Z) (k : Z) : float := truediv (of_int m) (of_int (10 ^ k)).
End Float64.

Abbreviation float := Float64.float.

(** ** Data of the pipeline *)

(** The dictionaries [location] and [location_epsg_new]: four scalars under
    the fixed keys "north", "south", "east" and "west". *)
Record Location : Type := {
  north : float;
  south : float;
  east : float;
  west : float
}.

(** A cell of a table. *)
Inductive cell : Type :=
| Text (s : string)
| Number (x : float)
| Integer (z : Z).

(** A row of a GeoDataFrame: the identifier [osmid], a geometry and the
    other columns. *)
Record feature : Type := {
  osmid : Z;
  geometry : list (float * float);
  columns : list (string * cell)
}.

Definition GeoDataFrame : Type := list feature.

(** A row of the weather tables: its index label, the columns [fecha] and
    [hora], and the remaining columns. *)
Record observation : Type := {
  label : Z;
  fecha : string;
  hora : Z;
  measures : list (string * cell)
}.

Definition DataFrame : Type := list observation.

(** A row of the SUMO emissions table. *)
Record emission : Type := {
  edge_osmid : Z;
  pollutant : string;
  timestep : Z;
  value : float
}.

Definition EmissionsFrame : Type := list emission.

(** The command line arguments, [args.north], [args.process], ... *)
Module args.
Record t : Type := {
  north : float;
  south : float;
  east : float;
  west : float;
  base_directory : string;
  met_file : string;
  buildings_shapefile_filename : string;
  highways_shapefile_filename : string;
  process : string;
  epsg : Z;
  input_weather_file : string;
  output_weather_file : string;
  weather_day : option string;
  weather_hour : option Z;
  net_file : string;
  emissions_file : string;
  map_filename : string
}.
End args.

(** An exception: the name of its class, whether it is an instance of
    [Exception] (a [SystemExit], a [KeyboardInterrupt] or a [GeneratorExit]
    is a [BaseException] only), and what [str(e)] gives. *)
Record exn : Type := {
  exn_class : string;
  is_Exception : bool;
  str : string
}.

(** How a call ends. *)
Inductive outcome (A : Type) : Type :=
| Return (a : A)
| Raise (e : exn).
Arguments Return {A} a.
Arguments Raise {A} e.

(** ** The pandas expressions of [main.py] *)

(** [met_file_df[met_file_df['fecha'] == day]]: the rows whose mask is true,
    in their order, with their labels. *)
Definition slice_by_day (met_file_df : DataFrame) (day : string) : DataFrame :=
  filter (λ r, fecha r = day) met_file_df.

(** [day_met_file_df[(day_met_file_df['hora'] == hour)]]. *)
Definition slice_by_hour (day_met_file_df : DataFrame) (hour : Z) : DataFrame :=
  filter (λ r, hora r = hour) day_met_file_df.

(** [highway_gdf['osmid'].tolist()]. *)
Definition osmid_tolist (highway_gdf : GeoDataFrame) : list Z :=
  osmid <$> highway_gdf.

(** [x in l] on a list of strings. *)
Definition py_in (x : string) (l : list string) : bool :=
  existsb (String.eqb x) l.

(** [(location["north"] + location["south"]) / 2] *)
Definition mean_latitude (location : Location) : float :=
  Float64.truediv (Float64.add (north location) (south location)) (Float64.of_int 2).

(** ** Collaborators *)

Section Pipeline.

(** The state of everything outside [main.py]: the disk, the objects of
    the processors.  [Net] is the object [sumolib] reads a network into. *)
Context {W Net : Type}.

(** The calls [main.py] makes, with their arguments. *)
Inductive call : Type :=
(* the five constructors *)
| new_Buildings (location : Location)
| new_Weather (base_directory : string)
| new_Highways (location : Location)
| new_Maps (base_directory : string)
| new_GRAL (base_directory met_file buildings_shp highways_shp : string)
(* osmnx, geopandas, sumolib *)
| project_gdf (geo_df : GeoDataFrame) (to_crs : string) (to_latlong : bool)
| set_crs (geo_df : GeoDataFrame) (crs : string)
| to_file (geo_df : GeoDataFrame) (path : string) (driver : string)
| readNet (path : string)
(* buildings_module *)
| process_buildings
(* weather_module *)
| process_weather_data (input_weather_file : string)
| create_met_file (met_file_df : DataFrame)
| write_to_files (df : DataFrame) (name : string)
(* highways_module *)
| process_highway_data (net : Net)
| process_sumo_edges_emissions_file
    (emissions_file : string) (net : Net) (osmids : list Z)
| combine_sumo_emissions_and_highway_data
    (sumo_emissions_df : EmissionsFrame) (highway_gdf : GeoDataFrame)
(* maps_module *)
| convert_coordinates (x y : float) (from_epsg to_epsg : Z)
| create_georeferenced_map (bbox : Location) (epsg : Z) (map_filename : string)
(* gral_module *)
| create_greb_file (bbox : Location) (horizontal_slices : Z)
| create_in_dat_file
    (particles_ps dispertion_time : Z) (latitude : float)
    (horizontal_slices : list Z)
| create_meteogpt_file
| create_other_txt_requiered_files (pollutant : string) (n_cores : Z)
| create_buildings_file
| create_line_emissions_file (pollutant : string)
| create_other_optional_files.

(** What a call returns when it returns.  The collaborators are taken at
    the types [main.py] uses them at: a pair of tables is a pair, a table
    of road segments has its column [osmid]; so the two unpackings and the
    column lookup of [main] raise nothing, and every exception of a run is
    the exception of a call. *)
Definition returns (c : call) : Type :=
  match c with
  | project_gdf _ _ _ | set_crs _ _ | process_buildings
  | process_highway_data _
  | combine_sumo_emissions_and_highway_data _ _ => GeoDataFrame
  | readNet _ => Net
  | process_weather_data _ => DataFrame * DataFrame
  | process_sumo_edges_emissions_file _ _ _ => EmissionsFrame
  | convert_coordinates _ _ _ _ => float * float
  | _ => unit
  end.

(** What is observed of a run: each call with the world before it, its
    outcome and the world after it, and each line printed. *)
Inductive event : Type :=
| Called (c : call) (before : W) (r : outcome (returns c)) (after : W)
| Printed (line : string).

(** ** The monad of the embedding: world, exceptions, trace *)

Record run (A : Type) : Type := {
  result : outcome A;
  world : W;
  trace : list event
}.
Arguments result {A} _.
Arguments world {A} _.
Arguments trace {A} _.

Definition M (A : Type) : Type := W → run A.

Definition pure {A} (a : A) : M A :=
  λ w, {| result := Return a; world := w; trace := [] |}.

Definition bind {A B} (m : M A) (k : A → M B) : M B :=
  λ w, let '{| result := r; world := w1; trace := t1 |} := m w in
       match r with
       | Return a =>
           let '{| result := r'; world := w2; trace := t2 |} := k a w1 in
           {| result := r'; world := w2; trace := t1 ++ t2 |}
       | Raise e => {| result := Raise e; world := w1; trace := t1 |}
       end.

(** [try: m except Exception as e: h e]: the handler runs for the
    instances of [Exception]; any other exception goes on to the caller. *)
Definition try_except {A} (m : M A) (h : exn → M A) : M A :=
  λ w, let '{| result := r; world := w1; trace := t1 |} := m w in
       match r with
       | Return a => {| result := Return a; world := w1; trace := t1 |}
       | Raise e =>
           if is_Exception e then
             let '{| result := r'; world := w2; trace := t2 |} := h e w1 in
             {| result := r'; world := w2; trace := t1 ++ t2 |}
           else {| result := Raise e; world := w1; trace := t1 |}
       end.

Definition print (line : string) : M unit :=
  λ w, {| result := Return tt; world := w; trace := [Printed line] |}.

(** The environment: how each call ends in each world. *)
Variable perform : ∀ c : call, W → outcome (returns c) * W.

Definition do (c : call) : M (returns c) :=
  λ w, let '(r, w') := perform c w in
       {| result := r; world := w'; trace := [Called c w r w'] |}.

Notation "'let*' x := m 'in' k" := (bind m (λ x, k))
  (at level 10, x pattern, m at level 100, k at level 200, only parsing).
Notation "m ;; k" := (bind m (λ _, k))
  (at level 100, k at level 200, right associativity, only parsing).

(** ** [create_shapefile] (main.py, lines 11-37) *)

Definition create_shapefile
    (geo_df : GeoDataFrame) (coordinate_system directory filename : string)
  : M unit :=
  print "Creating shapefile..." ;;
  try_except
    (let* geo_df_reprojected := do (project_gdf geo_df coordinate_system false) in
     let* geo_df_reprojected := do (set_crs geo_df_reprojected coordinate_system) in
     do (to_file geo_df_reprojected (directory +:+ "/" +:+ filename)
           "ESRI Shapefile"))
    (λ e, print ("Failed to create shapefile: " +:+ str e)).

(** ** [main] (main.py, lines 40-153) *)

(** Lines 43-56: the [location] dictionary and the five module objects. *)
Definition location_of (a : args.t) : Location :=
  {| north := args.north a; south := args.south a;
     east := args.east a; west := args.west a |}.

Definition main_modules (a : args.t) (location : Location) : M unit :=
  do (new_Buildings location) ;;
  do (new_Weather (args.base_directory a)) ;;
  do (new_Highways location) ;;
  do (new_Maps (args.base_directory a)) ;;
  do (new_GRAL (args.base_directory a) (args.met_file a)
        (args.buildings_shapefile_filename a)
        (args.highways_shapefile_filename a)).

(** Lines 59-66. *)
Definition main_buildings (a : args.t) : M unit :=
  if py_in (args.process a) ["all"; "buildings"] then
    let* buildings_gdf := do process_buildings in
    create_shapefile buildings_gdf ("EPSG:" +:+ pretty (args.epsg a))
      (args.base_directory a) (args.buildings_shapefile_filename a)
  else pure tt.

(** Lines 68-85. *)
Definition main_weather (a : args.t) : M unit :=
  if py_in (args.process a) ["all"; "weather"] then
    let* (weather_df, met_file_df) :=
      do (process_weather_data (args.input_weather_file a)) in
    do (create_met_file met_file_df) ;;
    do (write_to_files weather_df (args.output_weather_file a +:+ ".csv")) ;;
    do (write_to_files met_file_df (args.output_weather_file a +:+ ".met")) ;;
    match args.weather_day a with
    | Some weather_day =>
        let day_met_file_df := slice_by_day met_file_df weather_day in
        do (write_to_files day_met_file_df
              (args.output_weather_file a +:+ "_" +:+ weather_day +:+ ".met")) ;;
        match args.weather_hour a with
        | Some weather_hour =>
            let hour_met_file_df := slice_by_hour day_met_file_df weather_hour in
            do (write_to_files hour_met_file_df
                  (args.output_weather_file a +:+ "_" +:+ weather_day
                     +:+ "_" +:+ pretty weather_hour +:+ ".met"))
        | None => pure tt
        end
    | None => pure tt
    end
  else pure tt.

(** Lines 87-103. *)
Definition main_highway (a : args.t) : M unit :=
  if py_in (args.process a) ["all"; "highway"] then
    let* net_file := do (readNet (args.net_file a)) in
    let* highway_gdf := do (process_highway_data net_file) in
    let* sumo_emissions_df :=
      do (process_sumo_edges_emissions_file (args.emissions_file a) net_file
            (osmid_tolist highway_gdf)) in
    let* highway_emissions_gdf :=
      do (combine_sumo_emissions_and_highway_data sumo_emissions_df highway_gdf) in
    create_shapefile highway_emissions_gdf ("EPSG:" +:+ pretty (args.epsg a))
      (args.base_directory a) (args.highways_shapefile_filename a)
  else pure tt.

(** Lines 105-119. *)
Definition main_map (a : args.t) (location : Location) : M unit :=
  if py_in (args.process a) ["all"; "map"] then
    let* (west_point_epsg_new_x, north_point_epsg_new_y) :=
      do (convert_coordinates (west location) (north location) 4326 (args.epsg a)) in
    let* (east_point_epsg_new_x, south_point_epsg_new_y) :=
      do (convert_coordinates (east location) (south location) 4326 (args.epsg a)) in
    let location_epsg_new :=
      {| north := north_point_epsg_new_y; south := south_point_epsg_new_y;
         east := east_point_epsg_new_x; west := west_point_epsg_new_x |} in
    do (create_georeferenced_map location_epsg_new (args.epsg a) (args.map_filename a))
  else pure tt.

(** Lines 120-151. *)
Definition main_gral (a : args.t) (location : Location) : M unit :=
  if py_in (args.process a) ["gral"] then
    let* (west_point_epsg_new_x, north_point_epsg_new_y) :=
      do (convert_coordinates (west location) (north location) 4326 (args.epsg a)) in
    let* (east_point_epsg_new_x, south_point_epsg_new_y) :=
      do (convert_coordinates (east location) (south location) 4326 (args.epsg a)) in
    let location_epsg_new :=
      {| north := north_point_epsg_new_y; south := south_point_epsg_new_y;
         east := east_point_epsg_new_x; west := west_point_epsg_new_x |} in
    let pollutant := "NOx" in
    let horizontal_layers := [3; 6; 9; 12; 15] in
    do (create_greb_file location_epsg_new (Z.of_nat (length horizontal_layers))) ;;
    let mean_latitude := mean_latitude location in
    do (create_in_dat_file 500 3600 mean_latitude horizontal_layers) ;;
    do create_meteogpt_file ;;
    do (create_other_txt_requiered_files pollutant 12) ;;
    do create_buildings_file ;;
    do (create_line_emissions_file pollutant) ;;
    do create_other_optional_files
  else pure tt.

(** The body of the [try] of [main]. *)
Definition main_body (a : args.t) : M unit :=
  let location := location_of a in
  main_modules a location ;;
  main_buildings a ;;
  main_weather a ;;
  main_highway a ;;
  main_map a location ;;
  main_gral a location.

Definition main (a : args.t) : M unit :=
  try_except (main_body a)
    (λ e, print ("An error occurred: " +:+ str e)).

End Pipeline.

Arguments call : clear implicits.
Arguments event : clear implicits.
Arguments run : clear implicits.
Arguments M : clear implicits.
Arguments result {W Net A} _.
Arguments world {W Net A} _.
Arguments trace {W Net A} _.

(** ** What the properties observe in a trace *)

(** The files of the simulator, in the words of the specification. *)
Inductive stage : Type :=
| Meteogpt
| GREB
| InDat
| OtherRequiredFiles
| BuildingsFile
| LineEmissions
| OptionalFiles.

Global Instance stage_eq_dec : EqDecision stage.
Proof. solve_decision. Defined.

(** The five branches [main] dispatches on. *)
Inductive branch : Type :=
| BuildingsBranch
| WeatherBranch
| HighwayBranch
| MapBranch
| GralBranch.

Global Instance branch_eq_dec : EqDecision branch.
Proof. solve_decision. Defined.

Section Views.
Context {W Net : Type}.
Implicit Types (c : call Net) (ev : event W Net) (tr : list (event W Net)).

(** The file of the simulator a call of [gral_module] writes. *)
Definition stage_of_call c : option stage :=
  match c with
  | create_greb_file _ _ => Some GREB
  | create_in_dat_file _ _ _ _ => Some InDat
  | create_meteogpt_file => Some Meteogpt
  | create_other_txt_requiered_files _ _ => Some OtherRequiredFiles
  | create_buildings_file => Some BuildingsFile
  | create_line_emissions_file _ => Some LineEmissions
  | create_other_optional_files => Some OptionalFiles
  | _ => None
  end.

(** The branch of [main] a call belongs to.  The constructors run before
    the dispatch; [create_shapefile] is shared by the buildings and the
    highway branches and [convert_coordinates] by the map and the GRAL
    branches: their calls belong to no branch of their own. *)
Definition branch_of_call c : option branch :=
  match c with
  | process_buildings => Some BuildingsBranch
  | process_weather_data _ | create_met_file _ | write_to_files _ _ =>
      Some WeatherBranch
  | readNet _ | process_highway_data _
  | process_sumo_edges_emissions_file _ _ _
  | combine_sumo_emissions_and_highway_data _ _ => Some HighwayBranch
  | create_georeferenced_map _ _ _ => Some MapBranch
  | create_greb_file _ _ | create_in_dat_file _ _ _ _ | create_meteogpt_file
  | create_other_txt_requiered_files _ _ | create_buildings_file
  | create_line_emissions_file _ | create_other_optional_files =>
      Some GralBranch
  | _ => None
  end.

(** The calls made inside the [try] of [create_shapefile]. *)
Definition in_create_shapefile c : bool :=
  match c with
  | project_gdf _ _ _ | set_crs _ _ | to_file _ _ _ => true
  | _ => false
  end.

(** An event of the [try] of [create_shapefile]. *)
Definition shapefile_call ev : bool :=
  match ev with
  | Called c _ _ _ => in_create_shapefile c
  | Printed _ => false
  end.

Definition stage_of ev : option stage :=
  match ev with
  | Called c _ _ _ => stage_of_call c
  | Printed _ => None
  end.

Definition branch_of ev : option branch :=
  match ev with
  | Called c _ _ _ => branch_of_call c
  | Printed _ => None
  end.

(** The exception a call raised, if it raised. *)
Definition raised ev : option exn :=
  match ev with
  | Called _ _ (Raise e) _ => Some e
  | _ => None
  end.

(** The exception a call raised to the body of [main]: every exception of
    a call outside [create_shapefile], and of a call of the [try] of
    [create_shapefile] what its handler lets through. *)
Definition raised_to_main ev : option exn :=
  match ev with
  | Called c _ (Raise e) _ =>
      if in_create_shapefile c && is_Exception e then None else Some e
  | _ => None
  end.

(** The line an event printed. *)
Definition printed ev : option string :=
  match ev with
  | Called _ _ _ _ => None
  | Printed line => Some line
  end.

Definition world_before ev : option W :=
  match ev with
  | Called _ w _ _ => Some w
  | Printed _ => None
  end.

Definition world_after ev : option W :=
  match ev with
  | Called _ _ _ w => Some w
  | Printed _ => None
  end.

(** A use of the coordinate transformer: the point, the two codes, and
    how the call ended. *)
Definition conversion_of ev
  : option (float * float * Z * Z * outcome (float * float)) :=
  match ev with
  | Called (convert_coordinates x y from_epsg to_epsg) _ r _ =>
      Some (x, y, from_epsg, to_epsg, r)
  | _ => None
  end.

(** The projected bounding box a call consumes. *)
Definition bbox_of ev : option Location :=
  match ev with
  | Called (create_greb_file bbox _) _ _ _ => Some bbox
  | Called (create_georeferenced_map bbox _ _) _ _ _ => Some bbox
  | _ => None
  end.

(** The two tables [process_weather_data] returned. *)
Definition weather_tables ev : option (DataFrame * DataFrame) :=
  match ev with
  | Called (process_weather_data _) _ (Return tables) _ => Some tables
  | _ => None
  end.

(** The file [write_to_files] is asked to write, and the table it holds. *)
Definition written_frame ev : option (string * DataFrame) :=
  match ev with
  | Called (write_to_files df name) _ _ _ => Some (name, df)
  | _ => None
  end.

(** The latitude passed to [create_in_dat_file]. *)
Definition in_dat_latitude ev : option float :=
  match ev with
  | Called (create_in_dat_file _ _ latitude _) _ _ _ => Some latitude
  | _ => None
  end.

Definition stages tr : list stage := omap stage_of tr.
Definition branches tr : list branch := omap branch_of tr.
Definition conversions tr := omap conversion_of tr.
Definition no_exception_reached_main tr : bool :=
  forallb (λ ev, match raised_to_main ev with None => true | Some _ => false end) tr.
Definition every_call_returned tr : bool :=
  forallb (λ ev, match raised ev with None => true | Some _ => false end) tr.

(** The five constructors of lines 51-56. *)
Definition constructor_call c : bool :=
  match c with
  | new_Buildings _ | new_Weather _ | new_Highways _ | new_Maps _
  | new_GRAL _ _ _ _ => true
  | _ => false
  end.

(** A call that is made once the module objects exist. *)
Definition after_construction ev : bool :=
  match ev with
  | Called c _ _ _ => negb (constructor_call c)
  | Printed _ => false
  end.

(** The table [to_file] is asked to write, its path and its driver. *)
Definition written_shapefile ev : option (GeoDataFrame * string * string) :=
  match ev with
  | Called (to_file geo_df path driver) _ _ _ => Some (geo_df, path, driver)
  | _ => None
  end.



(** The two tables given to the emissions join. *)
Definition joined ev : option (EmissionsFrame * GeoDataFrame) :=
  match ev with
  | Called (combine_sumo_emissions_and_highway_data emissions highways) _ _ _ =>
      Some (emissions, highways)
  | _ => None
  end.

(** The number of horizontal slices given to [create_greb_file], the layers
    given to [create_in_dat_file], the pollutant given to a stage. *)
Definition greb_slices ev : option Z :=
  match ev with
  | Called (create_greb_file _ horizontal_slices) _ _ _ => Some horizontal_slices
  | _ => None
  end.

Definition in_dat_layers ev : option (list Z) :=
  match ev with
  | Called (create_in_dat_file _ _ _ horizontal_slices) _ _ _ =>
      Some horizontal_slices
  | _ => None
  end.

Definition stage_pollutant ev : option string :=
  match ev with
  | Called (create_other_txt_requiered_files pollutant _) _ _ _ => Some pollutant
  | Called (create_line_emissions_file pollutant) _ _ _ => Some pollutant
  | _ => None
  end.
End Views.

(** The order in which [main] (lines 136-149) generates the files. *)
Definition generation_order : list stage :=
  [GREB; InDat; Meteogpt; OtherRequiredFiles; BuildingsFile; LineEmissions;
   OptionalFiles].

(** The order the specification gives to the sequencer. *)
Definition specified_order : list stage :=
  [Meteogpt; GREB; InDat; OtherRequiredFiles; BuildingsFile; LineEmissions;
   OptionalFiles].

(** A projected box keeps the ordering: north above south, east beyond west. *)
Definition well_ordered (bbox : Location) : bool :=
  SFltb (south bbox) (north bbox) && SFltb (west bbox) (east bbox).

(** ** The emissions join *)

Module Join.

(** A row of the joined table: the road segment with the columns of one
    emission record attached. *)
Definition attach (e : emission) (s : feature) : feature :=
  {| osmid := osmid s;
     geometry := geometry s;
     columns := columns s ++
       [("pollutant", Text (pollutant e)); ("timestep", Integer (timestep e));
        ("value", Number (value e))] |}.

(** Modelled from the spec: [combine_sumo_emissions_and_highway_data] of
    [line_emission_sources/highway_data_processor.py], which is not part of
    the sources at hand.  Section 4.3: an equi-join on the identifier, one
    output row per emission record of a segment, only identifiers present in
    both inputs survive, neither input is changed. *)
Definition combine_sumo_emissions_and_highway_data
    (sumo_emissions_df : EmissionsFrame) (highway_gdf : GeoDataFrame)
  : GeoDataFrame :=
  e ← sumo_emissions_df;
  s ← filter (λ s, osmid s = edge_osmid e) highway_gdf;
  [attach e s].

Definition identifiers (gdf : GeoDataFrame) : list Z := osmid <$> gdf.
Definition emission_identifiers (df : EmissionsFrame) : list Z :=
  edge_osmid <$> df.

End Join.

(** ** A concrete environment

    A disk that holds the names of the files written so far, collaborators
    that return small tables, and a choice of the coordinate transformer and
    of the calls that raise. *)

Module Example.

Definition disk : Type := list string.

(** A stand-in for a projection to metres. *)
Definition to_metres (x y : float) : float * float :=
  (SFmul Float64.prec Float64.emax x (Float64.of_int 111320),
   SFmul Float64.prec Float64.emax y (Float64.of_int 110574)).

(** A south-oriented system: westings and southings. *)
Definition south_oriented (x y : float) : float * float :=
  (SFopp x, SFopp y).

(** The weather series of the end-to-end scenario: two days, and two rows
    at 14 hours on the second. *)
Definition weather : DataFrame :=
  [ {| label := 0; fecha := "2024-01-01"; hora := 13; measures := [] |};
    {| label := 1; fecha := "2024-01-01"; hora := 14; measures := [] |};
    {| label := 2; fecha := "2024-01-02"; hora := 13; measures := [] |};
    {| label := 3; fecha := "2024-01-02"; hora := 14; measures := [] |};
    {| label := 4; fecha := "2024-01-02"; hora := 14; measures := [] |};
    {| label := 5; fecha := "2024-01-02"; hora := 15; measures := [] |} ].

Definition ending {A} (fault : option exn) (a : A) (w w' : disk)
  : outcome A * disk :=
  match fault with
  | Some e => (Raise e, w)
  | None => (Return a, w')
  end.

Definition perform
    (transformer : float → float → float * float)
    (fault : call unit → option exn)
    (c : call unit) (w : disk) : outcome (returns c) * disk :=
  match c as c0 return option exn → outcome (returns c0) * disk with
  | new_Buildings _ | new_Weather _ | new_Highways _ | new_Maps _
  | new_GRAL _ _ _ _ => λ f, ending f tt w w
  | project_gdf geo_df _ _ => λ f, ending f geo_df w w
  | set_crs geo_df _ => λ f, ending f geo_df w w
  | to_file _ path _ => λ f, ending f tt w (w ++ [path])
  | readNet _ => λ f, ending f tt w w
  | process_buildings => λ f, ending f [] w w
  | process_weather_data _ => λ f, ending f (weather, weather) w w
  | create_met_file _ => λ f, ending f tt w w
  | write_to_files _ name => λ f, ending f tt w (w ++ [name])
  | process_highway_data _ => λ f, ending f [] w w
  | process_sumo_edges_emissions_file _ _ _ => λ f, ending f [] w w
  | combine_sumo_emissions_and_highway_data emissions highways =>
      λ f, ending f
             (Join.combine_sumo_emissions_and_highway_data emissions highways)
             w w
  | convert_coordinates x y _ _ => λ f, ending f (transformer x y) w w
  | create_georeferenced_map _ _ name => λ f, ending f tt w (w ++ [name])
  | create_greb_file _ _ => λ f, ending f tt w (w ++ ["GREB"])
  | create_in_dat_file _ _ _ _ => λ f, ending f tt w (w ++ ["in.dat"])
  | create_meteogpt_file => λ f, ending f tt w (w ++ ["meteogpt.all"])
  | create_other_txt_requiered_files _ _ => λ f, ending f tt w (w ++ ["other"])
  | create_buildings_file => λ f, ending f tt w (w ++ ["buildings"])
  | create_line_emissions_file _ => λ f, ending f tt w (w ++ ["line emissions"])
  | create_other_optional_files => λ f, ending f tt w (w ++ ["optional"])
  end (fault c).

Definition no_fault (c : call unit) : option exn := None.

(** The bounding box of the end-to-end scenario of the specification:
    north 10.1, south 10.0, east 20.1, west 20.0, target EPSG 32633. *)
Definition scenario (process : string) : args.t :=
  {| args.north := Float64.literal 101 1;
     args.south := Float64.literal 100 1;
     args.east := Float64.literal 201 1;
     args.west := Float64.literal 200 1;
     args.base_directory := "out";
     args.met_file := "weather.met";
     args.buildings_shapefile_filename := "buildings.shp";
     args.highways_shapefile_filename := "highways.shp";
     args.process := process;
     args.epsg := 32633;
     args.input_weather_file := "observations.csv";
     args.output_weather_file := "weather";
     args.weather_day := Some "2024-01-02";
     args.weather_hour := Some 14;
     args.net_file := "osm.net.xml";
     args.emissions_file := "edges-emissions.xml";
     args.map_filename := "map.tif" |}.

Definition disk_full : exn :=
  {| exn_class := "OSError"; is_Exception := true;
     str := "No space left on device" |}.

Definition empty_table : exn :=
  {| exn_class := "ValueError"; is_Exception := true;
     str := "Cannot write empty DataFrame to file." |}.

(** The user presses Ctrl-C: a [KeyboardInterrupt] is a [BaseException]
    and no [Exception]. *)
Definition interrupted : exn :=
  {| exn_class := "KeyboardInterrupt"; is_Exception := false; str := "" |}.

(** The disk is full when the GREB file is written. *)
Definition greb_fails (c : call unit) : option exn :=
  match c with
  | create_greb_file _ _ => Some disk_full
  | _ => None
  end.

(** The shapefile driver refuses every table. *)
Definition to_file_fails (c : call unit) : option exn :=
  match c with
  | to_file _ _ _ => Some empty_table
  | _ => None
  end.

(** The user interrupts the writing of the GREB file. *)
Definition greb_interrupted (c : call unit) : option exn :=
  match c with
  | create_greb_file _ _ => Some interrupted
  | _ => None
  end.

(** The user interrupts the writing of a shapefile. *)
Definition to_file_interrupted (c : call unit) : option exn :=
  match c with
  | to_file _ _ _ => Some interrupted
  | _ => None
  end.

(** Runs of [main] from an empty disk. *)
Definition complete_run : run disk unit unit :=
  main (perform to_metres no_fault) (scenario "gral") [].

Definition inverted_run : run disk unit unit :=
  main (perform south_oriented no_fault) (scenario "gral") [].

Definition failed_run : run disk unit unit :=
  main (perform to_metres greb_fails) (scenario "gral") [].

Definition all_run : run disk unit unit :=
  main (perform to_metres to_file_fails) (scenario "all") [].

Definition map_run : run disk unit unit :=
  main (perform to_metres no_fault) (scenario "map") [].

Definition interrupted_run : run disk unit unit :=
  main (perform to_metres greb_interrupted) (scenario "gral") [].

Definition interrupted_all_run : run disk unit unit :=
  main (perform to_metres to_file_interrupted) (scenario "all") [].

(** A run of [create_shapefile] whose write is interrupted. *)
Definition interrupted_write : run disk unit unit :=
  create_shapefile (perform to_metres to_file_interrupted) [] "EPSG:32633" "out"
    "buildings.shp" [].

(** A run of [create_shapefile] whose write fails. *)
Definition failed_write : run disk unit unit :=
  create_shapefile (perform to_metres to_file_fails) [] "EPSG:32633" "out"
    "buildings.shp" [].

(** The box of the scenario, corner by corner through [to_metres]. *)
Definition projected_box : Location :=
  {| north := (to_metres (Float64.literal 200 1) (Float64.literal 101 1)).2;
     south := (to_metres (Float64.literal 201 1) (Float64.literal 100 1)).2;
     east := (to_metres (Float64.literal 201 1) (Float64.literal 100 1)).1;
     west := (to_metres (Float64.literal 200 1) (Float64.literal 101 1)).1 |}.

(** The box of the scenario in the south-oriented system. *)
Definition inverted_box : Location :=
  {| north := SFopp (Float64.literal 101 1);
     south := SFopp (Float64.literal 100 1);
     east := SFopp (Float64.literal 201 1);
     west := SFopp (Float64.literal 200 1) |}.

(** Emissions for the segments 1, 2, 3 and road segments 2, 3, 4. *)
Definition emissions : EmissionsFrame :=
  [ {| edge_osmid := 1; pollutant := "NOx"; timestep := 0; value := Float64.of_int 4 |};
    {| edge_osmid := 2; pollutant := "NOx"; timestep := 0; value := Float64.of_int 5 |};
    {| edge_osmid := 3; pollutant := "NOx"; timestep := 0; value := Float64.of_int 6 |} ].

Definition segments : GeoDataFrame :=
  [ {| osmid := 2; geometry := []; columns := [("highway", Text "primary")] |};
    {| osmid := 3; geometry := []; columns := [("highway", Text "secondary")] |};
    {| osmid := 4; geometry := []; columns := [("highway", Text "tertiary")] |} ].

End Example.

(** ** Invariants of computations *)

Section Invariants.
Context {W Net : Type}.

(** Every event [m] emits, from every world, satisfies [P]. *)
Definition emits {A} (P : event W Net → Prop) (m : M W Net A) : Prop :=
  ∀ w, Forall P (trace (m w)).

(** [m] fails fast: when it returns, no call raised to the body of
    [main]; when it raises, the call that raised is the last event, and the
    world is the one that call left. *)
Definition fail_fast {A} (m : M W Net A) : Prop :=
  ∀ w,
    match result (m w) with
    | Return _ => Forall (λ ev, raised_to_main ev = None) (trace (m w))
    | Raise e =>
        ∃ pre ev,
          trace (m w) = pre ++ [ev]
          ∧ raised_to_main ev = Some e
          ∧ world_after ev = Some (world (m w))
          ∧ Forall (λ ev, raised_to_main ev = None) pre
    end.

(** [t] is what a part [m] of [main] emitted: nothing when the run ended
    before it, its trace from some world otherwise. *)
Definition part_of {A} (m : M W Net A) (t : list (event W Net)) : Prop :=
  t = [] ∨ ∃ w, t = trace (m w).

(** An event of the part of [main] that comes before the map and the GRAL
    branches. *)
Definition preliminary (ev : event W Net) : Prop :=
  branch_of ev ≠ Some MapBranch ∧ branch_of ev ≠ Some GralBranch
  ∧ conversion_of ev = None.
End Invariants.

(** * Properties *)

(** ** The monad *)

Section MonadFacts.
Context {W Net : Type}.
Variable perform : ∀ c : call Net, W → outcome (returns c) * W.
Implicit Types (w : W) (ev : event W Net) (P : event W Net → Prop).

Lemma trace_bind {A B} (m : M W Net A) (k : A → M W Net B) w :
  trace (bind m k w) =
    trace (m w) ++
    match result (m w) with
    | Return a => trace (k a (world (m w)))
    | Raise _ => []
    end.
Proof.
  unfold bind. destruct (m w) as [[a|e] w1 t1]; simpl.
  - by destruct (k a w1).
  - by rewrite app_nil_r.
Qed.

Lemma result_bind {A B} (m : M W Net A) (k : A → M W Net B) w :
  result (bind m k w) =
    match result (m w) with
    | Return a => result (k a (world (m w)))
    | Raise e => Raise e
    end.
Proof.
  unfold bind. destruct (m w) as [[a|e] w1 t1]; simpl; [|done].
  by destruct (k a w1).
Qed.

Lemma world_bind {A B} (m : M W Net A) (k : A → M W Net B) w :
  world (bind m k w) =
    match result (m w) with
    | Return a => world (k a (world (m w)))
    | Raise e => world (m w)
    end.
Proof.
  unfold bind. destruct (m w) as [[a|e] w1 t1]; simpl; [|done].
  by destruct (k a w1).
Qed.

Lemma trace_try_except {A} (m : M W Net A) (h : exn → M W Net A) w :
  trace (try_except m h w) =
    trace (m w) ++
    match result (m w) with
    | Return _ => []
    | Raise e => if is_Exception e then trace (h e (world (m w))) else []
    end.
Proof.
  unfold try_except. destruct (m w) as [[a|e] w1 t1]; simpl.
  - by rewrite app_nil_r.
  - destruct (is_Exception e); simpl; [by destruct (h e w1)|].
    by rewrite app_nil_r.
Qed.

Lemma result_try_except {A} (m : M W Net A) (h : exn → M W Net A) w :
  result (try_except m h w) =
    match result (m w) with
    | Return a => Return a
    | Raise e => if is_Exception e then result (h e (world (m w))) else Raise e
    end.
Proof.
  unfold try_except. destruct (m w) as [[a|e] w1 t1]; simpl; [done|].
  destruct (is_Exception e); [|done]. by destruct (h e w1).
Qed.

Lemma world_try_except {A} (m : M W Net A) (h : exn → M W Net A) w :
  world (try_except m h w) =
    match result (m w) with
    | Return a => world (m w)
    | Raise e =>
        if is_Exception e then world (h e (world (m w))) else world (m w)
    end.
Proof.
  unfold try_except. destruct (m w) as [[a|e] w1 t1]; simpl; [done|].
  destruct (is_Exception e); [|done]. by destruct (h e w1).
Qed.

(** *** [emits] follows the structure of the program *)

Lemma emits_pure {A} P (a : A) : emits P (pure a : M W Net A).
Proof. intros w. constructor. Qed.

Lemma emits_print P line : P (Printed line) → emits P (print line).
Proof. intros H w. by repeat constructor. Qed.

Lemma emits_do P (c : call Net) :
  (∀ w r w', P (Called c w r w')) → emits P (do perform c).
Proof.
  intros H w. unfold do. destruct (perform c w). by repeat constructor.
Qed.

Lemma emits_bind {A B} P (m : M W Net A) (k : A → M W Net B) :
  emits P m → (∀ a, emits P (k a)) → emits P (bind m k).
Proof.
  intros Hm Hk w. rewrite trace_bind. apply Forall_app. split; [apply Hm|].
  destruct (result (m w)); [apply Hk | constructor].
Qed.

Lemma emits_try_except {A} P (m : M W Net A) (h : exn → M W Net A) :
  emits P m → (∀ e, emits P (h e)) → emits P (try_except m h).
Proof.
  intros Hm Hh w. rewrite trace_try_except. apply Forall_app.
  split; [apply Hm|].
  destruct (result (m w)) as [a|e]; [constructor|].
  destruct (is_Exception e); [apply Hh|constructor].
Qed.

(** *** [fail_fast] follows the structure of the program *)

Lemma fail_fast_pure {A} (a : A) : @fail_fast W Net A (pure a).
Proof. intros w. simpl. constructor. Qed.

Lemma fail_fast_do (c : call Net) :
  in_create_shapefile c = false → fail_fast (do perform c).
Proof.
  intros Hc w. unfold do.
  destruct (perform c w) as [[v|e] w']; simpl.
  - by repeat constructor.
  - exists [], (Called c w (Raise e) w').
    cbn [raised_to_main world_after]. rewrite Hc. by repeat split.
Qed.

Lemma fail_fast_bind {A B} (m : M W Net A) (k : A → M W Net B) :
  fail_fast m → (∀ a, fail_fast (k a)) → fail_fast (bind m k).
Proof.
  intros Hm Hk w. specialize (Hm w).
  rewrite result_bind, trace_bind, world_bind.
  destruct (result (m w)) as [a|e].
  - specialize (Hk a (world (m w))).
    destruct (result (k a (world (m w)))) as [b|e].
    + by apply Forall_app.
    + destruct Hk as (pre & ev & -> & Hev & Hw & Hpre).
      exists (trace (m w) ++ pre), ev.
      rewrite <- app_assoc. by rewrite Forall_app.
  - destruct Hm as (pre & ev & -> & Hev & Hw & Hpre).
    exists pre, ev. by rewrite app_nil_r.
Qed.

End MonadFacts.

(** ** Lists of events *)

Section ListFacts.
Context {A : Type}.
Implicit Types (l pre post : list A) (P : A → Prop).

(** An element that satisfies [P] sits at one place only when nothing
    around that place satisfies [P]. *)
Lemma split_unique P pre x post pre' y post' :
  pre ++ x :: post = pre' ++ y :: post' →
  P x → Forall (λ z, ¬ P z) pre' → Forall (λ z, ¬ P z) post' →
  pre = pre' ∧ x = y ∧ post = post'.
Proof.
  revert pre. induction pre' as [|a pre' IH]; intros pre Heq Hx Hpre Hpost.
  - destruct pre as [|b pre]; simplify_eq/=; [done|].
    exfalso. rewrite Forall_app, Forall_cons in Hpost. tauto.
  - apply Forall_cons in Hpre as [Ha Hpre].
    destruct pre as [|b pre]; simplify_eq/=; [done|].
    destruct (IH pre) as (-> & -> & ->); done.
Qed.

Lemma cons_eq_split x l pre y post :
  x :: l = pre ++ y :: post →
  (pre = [] ∧ x = y ∧ l = post)
  ∨ (∃ pre', pre = x :: pre' ∧ l = pre' ++ y :: post).
Proof. destruct pre as [|z pre]; intros; simplify_eq/=; eauto. Qed.

Lemma nil_eq_split pre y post : [] = pre ++ y :: post → False.
Proof. by destruct pre. Qed.

Lemma app_eq_split l1 l2 pre y post :
  l1 ++ l2 = pre ++ y :: post →
  (∃ post1, l1 = pre ++ y :: post1 ∧ post = post1 ++ l2)
  ∨ (∃ pre2, l2 = pre2 ++ y :: post ∧ pre = l1 ++ pre2).
Proof.
  revert pre. induction l1 as [|a l1 IH]; intros pre Heq; simpl in *.
  - right. by exists pre.
  - destruct pre as [|b pre]; simplify_eq/=.
    + left. by exists l1.
    + destruct (IH pre) as [(post1 & -> & ->)|(pre2 & -> & ->)]; [done| |].
      * left. by exists post1.
      * right. by exists pre2.
Qed.
End ListFacts.

(** Prove [emits P m] along the structure of [m]; [tac] proves [P] of each
    event. *)
Ltac emits_rules tac :=
  repeat first
    [ apply emits_pure
    | apply emits_print; tac
    | match goal with
      | |- emits ?P (do ?p ?c) => refine (emits_do p P c _); intros ? [?|?] ?; tac
      end
    | apply emits_bind; [|intros ?]
    | apply emits_try_except; [|intros ?]
    | match goal with
      | |- emits _ (if ?b then _ else _) => destruct b
      | |- emits _ (match ?o with Some _ => _ | None => _ end) => destruct o
      | |- emits _ (match ?p with (_, _) => _ end) => destruct p
      | |- emits _ (create_shapefile _ _ _ _ _) => unfold create_shapefile
      end ].

(** ** [create_shapefile] *)

(** Run the program one call at a time, by cases on how each call ends. *)
Ltac run_calls perform :=
  cbv beta iota zeta delta [bind try_except do print pure result world trace];
  repeat
    match goal with
    | |- context [perform ?c ?w] =>
        let E := fresh "E" in
        destruct (perform c w) as [[?|?] ?] eqn:E; cbv beta iota
    | |- context [match ?p with (_, _) => _ end] =>
        is_var p; destruct p; cbv beta iota
    | |- context [args.weather_day ?a] =>
        destruct (args.weather_day a); cbv beta iota
    | |- context [args.weather_hour ?a] =>
        destruct (args.weather_hour a); cbv beta iota
    | |- context [is_Exception ?e] =>
        let E := fresh "E" in
        destruct (is_Exception e) eqn:E; cbv beta iota
    end;
  cbn [app].

(** Use what is known of the class of the exceptions at hand. *)
Ltac class_known :=
  repeat match goal with
    | H : is_Exception _ = _ |- _ => rewrite H
    end.

(** Split a short explicit trace at its last event. *)
Ltac last_event :=
  first
    [ eexists [], _; split; [reflexivity|]
    | eexists [_], _; split; [reflexivity|]
    | eexists [_; _], _; split; [reflexivity|]
    | eexists [_; _; _], _; split; [reflexivity|] ].

(** Find the place of an event in an explicit trace. *)
Ltac place_event H :=
  repeat first
    [ apply nil_eq_split in H; destruct H
    | apply cons_eq_split in H; destruct H as [(-> & <- & <-)|(? & -> & H)] ].

Section ShapefileFacts.
Context {W Net : Type}.
Variable perform : ∀ c : call Net, W → outcome (returns c) * W.
Implicit Types (w : W) (ev : event W Net) (geo_df : GeoDataFrame).

Lemma fail_fast_create_shapefile geo_df crs directory filename :
  fail_fast (create_shapefile perform geo_df crs directory filename).
Proof.
  intros w. unfold create_shapefile.
  run_calls perform;
    first
      [ repeat constructor; cbn [raised_to_main in_create_shapefile andb];
        class_known; done
      | last_event;
        cbn [raised_to_main in_create_shapefile andb world_after];
        class_known;
        by repeat constructor ].
Qed.

(** What [create_shapefile] does when a call of its [try] raises, by the
    class of the exception. *)
Lemma create_shapefile_logs geo_df crs directory filename w pre ev e post :
  let r := create_shapefile perform geo_df crs directory filename w in
  trace r = pre ++ ev :: post →
  raised ev = Some e →
  if is_Exception e
  then result r = Return tt
       ∧ post = [Printed ("Failed to create shapefile: " +:+ str e)]
  else result r = Raise e ∧ post = [] ∧ world_after ev = Some (world r).
Proof.
  cbv zeta. unfold create_shapefile. intros H Hev. revert H.
  run_calls perform; intros H; place_event H;
    cbn [raised world_after] in *; simplify_eq;
    first [done|congruence].
Qed.

Lemma create_shapefile_result geo_df crs directory filename w :
  let r := create_shapefile perform geo_df crs directory filename w in
  match result r with
  | Return _ => True
  | Raise e => is_Exception e = false
               ∧ ∃ pre ev, trace r = pre ++ [ev] ∧ raised ev = Some e
  end.
Proof.
  cbv zeta. unfold create_shapefile.
  run_calls perform; try done; split; try done;
    last_event; reflexivity.
Qed.

(** C9: [create_shapefile] stops every exception that is an instance of
    [Exception], and no other.  When a call of its [try] raises an
    instance of [Exception], the function returns [None], and the only
    event after the raising call is the line
    "Failed to create shapefile: ..." that names the exception.  When the
    exception is of another class ([KeyboardInterrupt], [SystemExit]), the
    handler does not apply: nothing is printed, and [create_shapefile]
    raises that exception to its caller, in the world the call left.
    The function raises in no other way; and when it returns, the caller
    carries on: what follows the call runs, in the world
    [create_shapefile] left. *)
Theorem create_shapefile_catches_exceptions geo_df crs directory filename w :
  let r := create_shapefile perform geo_df crs directory filename w in
  (∀ pre ev e post,
     trace r = pre ++ ev :: post →
     raised ev = Some e →
     is_Exception e = true →
     result r = Return tt
     ∧ post = [Printed ("Failed to create shapefile: " +:+ str e)])
  ∧ (∀ pre ev e post,
       trace r = pre ++ ev :: post →
       raised ev = Some e →
       is_Exception e = false →
       result r = Raise e ∧ post = []
       ∧ world_after ev = Some (world r))
  ∧ (∀ e, result r = Raise e →
       is_Exception e = false
       ∧ ∃ pre ev, trace r = pre ++ [ev] ∧ raised ev = Some e)
  ∧ (result r = Return tt →
     ∀ B (k : unit → M W Net B),
       let r' := bind (create_shapefile perform geo_df crs directory filename) k w in
       result r' = result (k tt (world r))
       ∧ world r' = world (k tt (world r))
       ∧ trace r' = trace r ++ trace (k tt (world r))).
Proof.
  cbv zeta. split; [|split; [|split]].
  - intros pre ev e post Htr Hev He.
    pose proof (create_shapefile_logs _ _ _ _ _ _ _ _ _ Htr Hev) as Hlogs.
    cbv zeta in Hlogs. by rewrite He in Hlogs.
  - intros pre ev e post Htr Hev He.
    pose proof (create_shapefile_logs _ _ _ _ _ _ _ _ _ Htr Hev) as Hlogs.
    cbv zeta in Hlogs. by rewrite He in Hlogs.
  - intros e Hraised.
    pose proof (create_shapefile_result geo_df crs directory filename w)
      as Hresult.
    cbv zeta in Hresult. by rewrite Hraised in Hresult.
  - intros Hreturned B k.
    by rewrite result_bind, world_bind, trace_bind, Hreturned.
Qed.

End ShapefileFacts.

(** ** The blocks of [main] fail fast *)

Ltac fail_fast_rules :=
  repeat first
    [ apply fail_fast_pure
    | apply fail_fast_create_shapefile
    | match goal with
      | |- fail_fast (do ?p ?c) => exact (fail_fast_do p c eq_refl)
      end
    | apply fail_fast_bind; [|intros ?]
    | match goal with
      | |- fail_fast (if ?b then _ else _) => destruct b
      | |- fail_fast (match ?o with Some _ => _ | None => _ end) => destruct o
      | |- fail_fast (match ?p with (_, _) => _ end) => destruct p
      end ].

Section MainFacts.
Context {W Net : Type}.
Variable perform : ∀ c : call Net, W → outcome (returns c) * W.
Implicit Types (w : W) (ev : event W Net) (a : args.t).

Lemma fail_fast_main_modules a location :
  fail_fast (main_modules perform a location).
Proof. unfold main_modules. fail_fast_rules. Qed.

Lemma fail_fast_main_buildings a : fail_fast (main_buildings perform a).
Proof. unfold main_buildings. fail_fast_rules. Qed.

Lemma fail_fast_main_weather a : fail_fast (main_weather perform a).
Proof. unfold main_weather. fail_fast_rules. Qed.

Lemma fail_fast_main_highway a : fail_fast (main_highway perform a).
Proof. unfold main_highway. fail_fast_rules. Qed.

Lemma fail_fast_main_map a location : fail_fast (main_map perform a location).
Proof. unfold main_map. fail_fast_rules. Qed.

Lemma fail_fast_main_gral a location : fail_fast (main_gral perform a location).
Proof. unfold main_gral. fail_fast_rules. Qed.

Lemma fail_fast_main_body a : fail_fast (main_body perform a).
Proof.
  unfold main_body. cbv zeta.
  repeat first
    [ apply fail_fast_main_modules | apply fail_fast_main_buildings
    | apply fail_fast_main_weather | apply fail_fast_main_highway
    | apply fail_fast_main_map | apply fail_fast_main_gral
    | apply fail_fast_bind; [|intros ?] ].
Qed.

(** How [main] ends, by how its body ends. *)
Lemma main_result a w :
  result (main perform a w)
  = match result (main_body perform a w) with
    | Return _ => Return tt
    | Raise e => if is_Exception e then Return tt else Raise e
    end.
Proof.
  unfold main. rewrite result_try_except.
  by destruct (result (main_body perform a w)) as [[]|e];
    [|destruct (is_Exception e)].
Qed.

(** What [main] does when a call raises to its body, by the class of the
    exception. *)
Lemma main_handles a w pre ev e post :
  trace (main perform a w) = pre ++ ev :: post →
  raised_to_main ev = Some e →
  world_after ev = Some (world (main perform a w))
  ∧ if is_Exception e
    then result (main perform a w) = Return tt
         ∧ post = [Printed ("An error occurred: " +:+ str e)]
    else result (main perform a w) = Raise e ∧ post = [].
Proof.
  intros Htr Hev. revert Htr. rewrite main_result. unfold main.
  rewrite trace_try_except, world_try_except.
  pose proof (fail_fast_main_body a w) as Hff.
  destruct (result (main_body perform a w)) as [[]|e'].
  - rewrite app_nil_r. intros Htr. exfalso.
    rewrite Htr, Forall_app, Forall_cons in Hff.
    destruct Hff as (_ & Hnone & _). congruence.
  - destruct Hff as (pre' & ev' & -> & Hev' & Hw & Hpre).
    assert (Hsplit : ∀ rest, pre' ++ ev' :: rest = pre ++ ev :: post →
              (∀ x, x ∈ rest → raised_to_main x = None) →
              ev = ev' ∧ post = rest).
    { intros rest Htr Hrest. symmetry in Htr.
      apply (split_unique (λ ev, raised_to_main ev ≠ None)) in Htr
        as (-> & -> & ->); [done|congruence| |].
      - eapply Forall_impl; [exact Hpre|]. by intros ? -> ?.
      - apply Forall_forall. intros x Hx ?. by apply Hrest in Hx. }
    destruct (is_Exception e') eqn:He'.
    + cbn [print trace world]. rewrite <- app_assoc. cbn [app].
      intros Htr. apply Hsplit in Htr as [-> ->].
      * assert (e = e') as -> by congruence. by rewrite He'.
      * intros x Hx. apply list_elem_of_singleton in Hx as ->. done.
    + rewrite app_nil_r. intros Htr. apply Hsplit in Htr as [-> ->].
      * assert (e = e') as -> by congruence. by rewrite He'.
      * intros x Hx. by apply elem_of_nil in Hx.
Qed.

(** C8: [main] stops every exception that is an instance of [Exception],
    and no other.  Whenever a call raises to the body of [main] (any call
    outside the [try] of [create_shapefile], or one inside it whose
    exception that [try] lets through), no later stage runs, and the world
    [main] ends in is the world the raising call left, so what was written
    before stays as it is.  When the exception is an instance of
    [Exception], [main] returns normally and the only event after the
    raising call is the line "An error occurred: ..." that names the
    exception.  When it is not ([KeyboardInterrupt], [SystemExit]), the
    raising call is the last event: nothing is printed and [main] raises
    the exception to its caller. *)
Theorem main_catches_exceptions a w pre ev e post :
  trace (main perform a w) = pre ++ ev :: post →
  raised_to_main ev = Some e →
  world_after ev = Some (world (main perform a w))
  ∧ (is_Exception e = true →
     result (main perform a w) = Return tt
     ∧ post = [Printed ("An error occurred: " +:+ str e)])
  ∧ (is_Exception e = false →
     result (main perform a w) = Raise e ∧ post = []).
Proof.
  intros Htr Hev.
  destruct (main_handles _ _ _ _ _ _ Htr Hev) as [Hw Hr].
  split; [exact Hw|]. split; intros He; by rewrite He in Hr.
Qed.

End MainFacts.

(** ** Up to the projection: constructors, buildings, weather, highway *)

Section Preliminaries.
Context {W Net : Type}.
Variable perform : ∀ c : call Net, W → outcome (returns c) * W.
Implicit Types (w : W) (ev : event W Net) (a : args.t).

Lemma preliminary_views ev :
  preliminary ev →
  stage_of ev = None ∧ bbox_of ev = None ∧ in_dat_latitude ev = None.
Proof.
  intros (Hmap & Hgral & Hconv).
  destruct ev as [c ? ? ?|?]; [|done]. by destruct c.
Qed.

Lemma trace_try_except_bind {A B} (m : M W Net A) (k : A → M W Net B) h w :
  trace (try_except (bind m k) h w) =
    trace (m w) ++
    match result (m w) with
    | Return x => trace (try_except (k x) h (world (m w)))
    | Raise e => if is_Exception e then trace (h e (world (m w))) else []
    end.
Proof.
  rewrite !trace_try_except, trace_bind, result_bind, world_bind.
  destruct (result (m w)) as [x|e]; [|by rewrite app_nil_r].
  rewrite <- app_assoc. f_equal. by rewrite trace_try_except.
Qed.

Lemma main_modules_preliminary a location :
  emits preliminary (main_modules perform a location).
Proof. unfold main_modules. emits_rules ltac:(by repeat split). Qed.

Lemma main_buildings_preliminary a :
  emits preliminary (main_buildings perform a).
Proof. unfold main_buildings. emits_rules ltac:(by repeat split). Qed.

Lemma main_weather_preliminary a :
  emits preliminary (main_weather perform a).
Proof. unfold main_weather. emits_rules ltac:(by repeat split). Qed.

Lemma main_highway_preliminary a :
  emits preliminary (main_highway perform a).
Proof. unfold main_highway. emits_rules ltac:(by repeat split). Qed.

(** The trace of [main]: preliminary events, then either what the handler
    of [main] does of an exception raised among them, or the run of the
    last two branches under that handler. *)
Lemma main_trace a w :
  ∃ start,
    Forall preliminary start
    ∧ ((∃ e, trace (main perform a w)
             = start ++ if is_Exception e
                        then [Printed ("An error occurred: " +:+ str e)]
                        else [])
       ∨ (∃ w',
            trace (main perform a w)
            = start ++
              trace (try_except
                       (bind (main_map perform a (location_of a))
                          (λ _, main_gral perform a (location_of a)))
                       (λ e, print ("An error occurred: " +:+ str e)) w'))).
Proof.
  unfold main, main_body. cbv zeta.
  rewrite trace_try_except_bind.
  pose proof (main_modules_preliminary a (location_of a) w) as H1.
  set (t1 := trace (main_modules perform a (location_of a) w)) in *.
  destruct (result (main_modules perform a (location_of a) w)) as [[]|e];
    [|exists t1; eauto].
  set (w1 := world (main_modules perform a (location_of a) w)).
  rewrite trace_try_except_bind.
  pose proof (main_buildings_preliminary a w1) as H2.
  set (t2 := trace (main_buildings perform a w1)) in *.
  destruct (result (main_buildings perform a w1)) as [[]|e].
  2:{ exists (t1 ++ t2). split; [by apply Forall_app|].
      left. exists e. by rewrite <- app_assoc. }
  set (w2 := world (main_buildings perform a w1)).
  rewrite trace_try_except_bind.
  pose proof (main_weather_preliminary a w2) as H3.
  set (t3 := trace (main_weather perform a w2)) in *.
  destruct (result (main_weather perform a w2)) as [[]|e].
  2:{ exists (t1 ++ t2 ++ t3). split; [by rewrite !Forall_app|].
      left. exists e. by rewrite <- !app_assoc. }
  set (w3 := world (main_weather perform a w2)).
  rewrite trace_try_except_bind.
  pose proof (main_highway_preliminary a w3) as H4.
  set (t4 := trace (main_highway perform a w3)) in *.
  exists (t1 ++ t2 ++ t3 ++ t4). split; [by rewrite !Forall_app|].
  destruct (result (main_highway perform a w3)) as [[]|e].
  - right. eexists. by rewrite <- !app_assoc.
  - left. exists e. by rewrite <- !app_assoc.
Qed.

End Preliminaries.

(** ** The dispatch on [args.process] *)

Section Dispatch.
Context {W Net : Type}.
Variable perform : ∀ c : call Net, W → outcome (returns c) * W.
Implicit Types (w : W) (ev : event W Net) (a : args.t).

Lemma py_in_gral p : py_in p ["gral"] = true → p = "gral".
Proof.
  unfold py_in. cbn [existsb]. rewrite orb_false_r. apply String.eqb_eq.
Qed.

Lemma py_in_not_gral p l :
  py_in p ["gral"] = true → py_in "gral" l = false → py_in p l = false.
Proof. by intros ->%py_in_gral. Qed.

Lemma main_gral_skipped a location :
  py_in (args.process a) ["gral"] = false →
  main_gral perform a location = pure tt.
Proof. unfold main_gral. by intros ->. Qed.

(** In mode "gral" the four other branches are skipped. *)
Lemma gral_mode_skips a :
  args.process a = "gral" →
  main_buildings perform a = pure tt
  ∧ main_weather perform a = pure tt
  ∧ main_highway perform a = pure tt
  ∧ main_map perform a (location_of a) = pure tt.
Proof.
  intros Hp. unfold main_buildings, main_weather, main_highway, main_map.
  by rewrite Hp.
Qed.

Lemma omap_none {A B} (f : A → option B) (l : list A) :
  Forall (λ x, f x = None) l → omap f l = [].
Proof. induction 1 as [|x l Hx _ IH]; [done|]. cbn. by rewrite Hx. Qed.

(** Preliminary events show in none of the views of the last two
    branches. *)
Lemma preliminary_omap (start : list (event W Net)) :
  Forall preliminary start →
  omap stage_of start = [] ∧ omap bbox_of start = []
  ∧ omap conversion_of start = [] ∧ omap in_dat_latitude start = [].
Proof.
  intros Hstart. repeat split; apply omap_none;
    (eapply Forall_impl; [exact Hstart|]); intros ev Hev;
    destruct (preliminary_views ev Hev) as (? & ? & ?); try done.
  by destruct Hev as (_ & _ & ?).
Qed.

(** C2, as the code has it: the resolution checks no ordering.  Whenever
    both corner transforms return, the box made of the returned
    coordinates is handed to its consumer as it is, whatever the order of
    its north and south and of its east and west: nothing is raised and
    nothing is swapped. *)
Theorem projected_box_is_not_checked a w p1 x1 y1 p2 x2 y2 :
  conversions (trace (main perform a w))
  = [(p1, Return (x1, y1)); (p2, Return (x2, y2))] →
  omap bbox_of (trace (main perform a w))
  = [{| north := y1; south := y2; east := x2; west := x1 |}].
Proof.
  unfold conversions.
  destruct (main_trace perform a w) as (start & Hstart & [(e & ->)|(w' & ->)]);
    try destruct (is_Exception e);
    destruct (preliminary_omap start Hstart) as (_ & Hbox & Hconv & _);
    rewrite !omap_app, Hbox, Hconv; cbn [app]; [done..|].
  unfold main_map, main_gral, location_of.
  destruct (py_in _ ["all"; "map"]) eqn:Hmap,
           (py_in _ ["gral"]) eqn:Hgral.
  { by rewrite (py_in_not_gral _ _ Hgral) in Hmap. }
  all: run_calls perform;
    cbn [omap list_omap bbox_of conversion_of north south east west];
    intros Heq; by simplify_eq.
Qed.

(** A complete run in mode "gral". *)
Lemma gral_run a w :
  args.process a = "gral" →
  every_call_returned (trace (main perform a w)) = true →
  stages (trace (main perform a w)) = generation_order
  ∧ omap in_dat_latitude (trace (main perform a w))
    = [Float64.truediv (Float64.add (args.north a) (args.south a))
         (Float64.of_int 2)].
Proof.
  intros Hp. destruct (gral_mode_skips a Hp) as (Hb & Hw & Hh & Hm).
  unfold main, main_body. cbv zeta. rewrite Hb, Hw, Hh, Hm.
  unfold main_modules, main_gral, stages, every_call_returned, mean_latitude,
    location_of.
  rewrite Hp. change (py_in "gral" ["gral"]) with true. cbv iota.
  run_calls perform;
    cbn [forallb raised andb omap list_omap stage_of stage_of_call
           in_dat_latitude north south];
    intros Hret; by simplify_eq.
Qed.

(** C1, as the code has it: the files are generated in the order GREB,
    in.dat, meteogpt.all, the other required files, the buildings file, the
    line emissions file, the optional files.  In every run the stages that
    were started form a beginning of that order (each at most once, none
    out of turn, none again after a later one), and a run in mode "gral" in
    which every call returns goes through all seven. *)
Theorem files_generated_in_order a w :
  stages (trace (main perform a w)) `prefix_of` generation_order
  ∧ (args.process a = "gral" →
     every_call_returned (trace (main perform a w)) = true →
     stages (trace (main perform a w)) = generation_order).
Proof.
  split; [|intros Hp Hret; by apply gral_run].
  unfold stages.
  destruct (main_trace perform a w) as (start & Hstart & [(e & ->)|(w' & ->)]);
    try destruct (is_Exception e);
    destruct (preliminary_omap start Hstart) as (Hstage & _);
    rewrite !omap_app, Hstage; cbn [app]; [apply prefix_nil..|].
  unfold main_map, main_gral.
  destruct (py_in _ ["all"; "map"]) eqn:Hmap,
           (py_in _ ["gral"]) eqn:Hgral.
  { by rewrite (py_in_not_gral _ _ Hgral) in Hmap. }
  all: run_calls perform; cbn [omap list_omap stage_of stage_of_call];
    by eexists.
Qed.

(** C3: the latitude given to [create_in_dat_file] is
    [(args.north + args.south) / 2] computed on the arguments of the
    command line, whatever the coordinate transformer returns; a complete
    run in mode "gral" passes exactly that latitude; and for north 10.1 and
    south 10.0 it is the float 10.05. *)
Theorem in_dat_latitude_is_geographic_mean a w :
  (∀ latitude,
     latitude ∈ omap in_dat_latitude (trace (main perform a w)) →
     latitude = Float64.truediv (Float64.add (args.north a) (args.south a))
                  (Float64.of_int 2))
  ∧ (args.process a = "gral" →
     every_call_returned (trace (main perform a w)) = true →
     omap in_dat_latitude (trace (main perform a w))
     = [Float64.truediv (Float64.add (args.north a) (args.south a))
          (Float64.of_int 2)])
  ∧ mean_latitude
      {| north := Float64.literal 101 1; south := Float64.literal 100 1;
         east := Float64.literal 201 1; west := Float64.literal 200 1 |}
    = Float64.literal 1005 2.
Proof.
  split; [|split; [intros Hp Hret; by apply gral_run|by vm_compute]].
  destruct (main_trace perform a w) as (start & Hstart & [(e & ->)|(w' & ->)]);
    try destruct (is_Exception e);
    destruct (preliminary_omap start Hstart) as (_ & _ & _ & Hlat);
    rewrite !omap_app, Hlat; cbn [app]; [by intros ? ?%elem_of_nil..|].
  unfold main_map, main_gral, mean_latitude, location_of.
  destruct (py_in _ ["all"; "map"]) eqn:Hmap,
           (py_in _ ["gral"]) eqn:Hgral.
  { by rewrite (py_in_not_gral _ _ Hgral) in Hmap. }
  all: run_calls perform; cbn [omap list_omap in_dat_latitude north south];
    intros latitude Hin;
    first [ by apply elem_of_nil in Hin
          | by apply list_elem_of_singleton in Hin as -> ].
Qed.

(** C6: in every run, the call that generates in.dat comes right after a
    call of [create_greb_file] that returned, and starts in the very world
    that call left: whatever the GREB step wrote is there when the in.dat
    step begins. *)
Theorem greb_completes_before_in_dat a w pre ev post :
  trace (main perform a w) = pre ++ ev :: post →
  stage_of ev = Some InDat →
  ∃ pre' bbox slices before after,
    pre = pre' ++ [Called (create_greb_file bbox slices) before (Return tt) after]
    ∧ perform (create_greb_file bbox slices) before = (Return tt, after)
    ∧ world_before ev = Some after.
Proof.
  intros Htr Hev.
  destruct (main_trace perform a w) as (start & Hstart & [(e & Hrun)|(w' & Hrun)]);
    rewrite Hrun in Htr; clear Hrun;
    apply app_eq_split in Htr as [(post1 & -> & ->)|(pre2 & Htr & ->)].
  1,3: apply Forall_app in Hstart as [_ [Hpre _]%Forall_cons];
       apply preliminary_views in Hpre as [Hpre _]; congruence.
  { destruct (is_Exception e); place_event Htr. discriminate. }
  revert Htr. unfold main_map, main_gral.
  destruct (py_in _ ["all"; "map"]) eqn:Hmap,
           (py_in _ ["gral"]) eqn:Hgral.
  { by rewrite (py_in_not_gral _ _ Hgral) in Hmap. }
  all: run_calls perform; intros Htr; place_event Htr;
    cbn [stage_of stage_of_call] in Hev; try discriminate.
  all: match goal with
       | E : perform (create_greb_file _ _) _ = (Return ?u, _) |- _ =>
           destruct u
       end;
    eexists (start ++ [_; _]), _, _, _, _; rewrite <- app_assoc;
    cbn [app world_before]; by repeat split.
Qed.

(** *** Mode "all" *)

Lemma main_buildings_runs a w :
  py_in (args.process a) ["all"; "buildings"] = true →
  result (main_buildings perform a w) = Return tt →
  BuildingsBranch ∈ branches (trace (main_buildings perform a w)).
Proof.
  intros Hp. unfold main_buildings, create_shapefile, branches. rewrite Hp.
  run_calls perform; cbn [omap list_omap branch_of branch_of_call];
    intros; first [by simplify_eq | apply list_elem_of_here].
Qed.

Lemma main_weather_runs a w :
  py_in (args.process a) ["all"; "weather"] = true →
  result (main_weather perform a w) = Return tt →
  WeatherBranch ∈ branches (trace (main_weather perform a w)).
Proof.
  intros Hp. unfold main_weather, branches. rewrite Hp.
  run_calls perform; cbn [omap list_omap branch_of branch_of_call];
    intros; first [by simplify_eq | apply list_elem_of_here].
Qed.

Lemma main_highway_runs a w :
  py_in (args.process a) ["all"; "highway"] = true →
  result (main_highway perform a w) = Return tt →
  HighwayBranch ∈ branches (trace (main_highway perform a w)).
Proof.
  intros Hp. unfold main_highway, create_shapefile, branches. rewrite Hp.
  run_calls perform; cbn [omap list_omap branch_of branch_of_call];
    intros; first [by simplify_eq | apply list_elem_of_here].
Qed.

Lemma main_map_runs a location w :
  py_in (args.process a) ["all"; "map"] = true →
  result (main_map perform a location w) = Return tt →
  MapBranch ∈ branches (trace (main_map perform a location w)).
Proof.
  intros Hp. unfold main_map, branches. rewrite Hp.
  run_calls perform; cbn [omap list_omap branch_of branch_of_call];
    intros; first [by simplify_eq | apply list_elem_of_here].
Qed.

(** When the body of [main] returns, each of its six parts returned, one
    after the other. *)
Lemma main_body_returns a w :
  result (main_body perform a w) = Return tt →
  ∃ w1 w2 w3 w4 w5,
    result (main_buildings perform a w1) = Return tt
    ∧ result (main_weather perform a w2) = Return tt
    ∧ result (main_highway perform a w3) = Return tt
    ∧ result (main_map perform a (location_of a) w4) = Return tt
    ∧ result (main_gral perform a (location_of a) w5) = Return tt
    ∧ trace (main_body perform a w)
      = trace (main_modules perform a (location_of a) w)
        ++ trace (main_buildings perform a w1)
        ++ trace (main_weather perform a w2)
        ++ trace (main_highway perform a w3)
        ++ trace (main_map perform a (location_of a) w4)
        ++ trace (main_gral perform a (location_of a) w5).
Proof.
  unfold main_body. cbv zeta.
  rewrite result_bind, trace_bind.
  destruct (result (main_modules _ _ _ w)) as [[]|]; [|done].
  set (w1 := world (main_modules _ _ _ w)).
  rewrite result_bind, trace_bind.
  destruct (result (main_buildings _ _ w1)) as [[]|] eqn:E1; [|done].
  set (w2 := world (main_buildings _ _ w1)).
  rewrite result_bind, trace_bind.
  destruct (result (main_weather _ _ w2)) as [[]|] eqn:E2; [|done].
  set (w3 := world (main_weather _ _ w2)).
  rewrite result_bind, trace_bind.
  destruct (result (main_highway _ _ w3)) as [[]|] eqn:E3; [|done].
  set (w4 := world (main_highway _ _ w3)).
  rewrite result_bind, trace_bind.
  destruct (result (main_map _ _ _ w4)) as [[]|] eqn:E4; [|done].
  intros E5.
  by exists w1, w2, w3, w4, (world (main_map perform a (location_of a) w4)).
Qed.

Lemma quiet_main_body_returns a w :
  no_exception_reached_main (trace (main perform a w)) = true →
  result (main_body perform a w) = Return tt.
Proof.
  unfold main, no_exception_reached_main. rewrite trace_try_except.
  pose proof (fail_fast_main_body perform a w) as Hff.
  destruct (result (main_body perform a w)) as [[]|e]; [done|].
  destruct Hff as (pre & ev & -> & Hev & _).
  rewrite !forallb_app. cbn [forallb]. rewrite Hev.
  by rewrite andb_false_r.
Qed.

(** In mode "all", when no exception reaches the body of [main], the
    buildings, weather, highway and map branches all run: what
    [create_shapefile] catches does not stop them. *)
Lemma all_mode_runs a w b :
  args.process a = "all" →
  no_exception_reached_main (trace (main perform a w)) = true →
  b ∈ [BuildingsBranch; WeatherBranch; HighwayBranch; MapBranch] →
  b ∈ branches (trace (main perform a w)).
Proof.
  intros Hp Hquiet%quiet_main_body_returns Hb.
  destruct (main_body_returns a w Hquiet)
    as (w1 & w2 & w3 & w4 & w5 & H1 & H2 & H3 & H4 & _ & Htr).
  unfold main, branches. rewrite trace_try_except, Hquiet, app_nil_r, Htr.
  rewrite !omap_app, !elem_of_app.
  apply main_buildings_runs in H1; [|by rewrite Hp].
  apply main_weather_runs in H2; [|by rewrite Hp].
  apply main_highway_runs in H3; [|by rewrite Hp].
  apply main_map_runs in H4; [|by rewrite Hp].
  repeat (apply elem_of_cons in Hb as [->|Hb]); [tauto..|].
  by apply elem_of_nil in Hb.
Qed.

(** *** The projected bounding box *)

Lemma py_in_map_or_gral p :
  py_in p ["all"; "map"; "gral"] = true →
  (py_in p ["all"; "map"] = true ∧ py_in p ["gral"] = false)
  ∨ (py_in p ["all"; "map"] = false ∧ py_in p ["gral"] = true).
Proof.
  unfold py_in. cbn [existsb].
  destruct (String.eqb_spec p "all") as [E1|E1],
           (String.eqb_spec p "map") as [E2|E2],
           (String.eqb_spec p "gral") as [E3|E3];
    cbn [orb]; intros H; first [congruence | by left | by right].
Qed.

(** The map branch, when it is selected and returns: the two corner
    transforms, and the box made of what they returned, given to
    [create_georeferenced_map]. *)
Lemma main_map_resolves a w :
  py_in (args.process a) ["all"; "map"] = true →
  result (main_map perform a (location_of a) w) = Return tt →
  ∃ x1 y1 x2 y2,
    omap conversion_of (trace (main_map perform a (location_of a) w))
    = [(args.west a, args.north a, 4326, args.epsg a, Return (x1, y1));
       (args.east a, args.south a, 4326, args.epsg a, Return (x2, y2))]
    ∧ omap bbox_of (trace (main_map perform a (location_of a) w))
      = [{| north := y1; south := y2; east := x2; west := x1 |}].
Proof.
  intros Hp. unfold main_map, location_of. rewrite Hp.
  run_calls perform;
    cbn [omap list_omap conversion_of bbox_of north south east west];
    intros; first [by simplify_eq | by eexists _, _, _, _].
Qed.

(** The same for the GRAL branch and [create_greb_file]. *)
Lemma main_gral_resolves a w :
  py_in (args.process a) ["gral"] = true →
  result (main_gral perform a (location_of a) w) = Return tt →
  ∃ x1 y1 x2 y2,
    omap conversion_of (trace (main_gral perform a (location_of a) w))
    = [(args.west a, args.north a, 4326, args.epsg a, Return (x1, y1));
       (args.east a, args.south a, 4326, args.epsg a, Return (x2, y2))]
    ∧ omap bbox_of (trace (main_gral perform a (location_of a) w))
      = [{| north := y1; south := y2; east := x2; west := x1 |}].
Proof.
  intros Hp. unfold main_gral, location_of. rewrite Hp.
  run_calls perform;
    cbn [omap list_omap conversion_of bbox_of north south east west];
    intros; first [by simplify_eq | by eexists _, _, _, _].
Qed.

(** A run that no exception ends, in a mode that needs the projected
    box. *)
Lemma box_is_resolved a w :
  py_in (args.process a) ["all"; "map"; "gral"] = true →
  no_exception_reached_main (trace (main perform a w)) = true →
  ∃ x1 y1 x2 y2,
    conversions (trace (main perform a w))
    = [(args.west a, args.north a, 4326, args.epsg a, Return (x1, y1));
       (args.east a, args.south a, 4326, args.epsg a, Return (x2, y2))]
    ∧ omap bbox_of (trace (main perform a w))
      = [{| north := y1; south := y2; east := x2; west := x1 |}].
Proof.
  intros Hp Hquiet%quiet_main_body_returns.
  destruct (main_body_returns a w Hquiet)
    as (w1 & w2 & w3 & w4 & w5 & _ & _ & _ & H4 & H5 & Htr).
  unfold main, conversions. rewrite trace_try_except, Hquiet, app_nil_r, Htr.
  destruct (preliminary_omap _
              (main_modules_preliminary perform a (location_of a) w))
    as (_ & Hb0 & Hc0 & _).
  destruct (preliminary_omap _ (main_buildings_preliminary perform a w1))
    as (_ & Hb1 & Hc1 & _).
  destruct (preliminary_omap _ (main_weather_preliminary perform a w2))
    as (_ & Hb2 & Hc2 & _).
  destruct (preliminary_omap _ (main_highway_preliminary perform a w3))
    as (_ & Hb3 & Hc3 & _).
  rewrite !omap_app, Hb0, Hc0, Hb1, Hc1, Hb2, Hc2, Hb3, Hc3. cbn [app].
  destruct (py_in_map_or_gral _ Hp) as [[Hmap Hgral]|[Hmap Hgral]].
  - destruct (main_map_resolves a w4 Hmap H4)
      as (x1 & y1 & x2 & y2 & -> & ->).
    rewrite (main_gral_skipped a _ Hgral).
    cbn [pure trace omap list_omap app].
    by exists x1, y1, x2, y2.
  - destruct (main_gral_resolves a w5 Hgral H5)
      as (x1 & y1 & x2 & y2 & -> & ->).
    unfold main_map. rewrite Hmap. cbn [pure trace omap list_omap app].
    by exists x1, y1, x2, y2.
Qed.

(** C7: the coordinate transformer is applied to two points only, first to
    the corner (west, north) and then to the corner (east, south) of the
    box of the command line, from EPSG 4326 to [args.epsg]: in every run
    the conversions made are a beginning of those two.  In the modes "all",
    "map" and "gral", a run that no exception ends makes exactly these two
    conversions, and hands one box to its consumer (the georeferenced map
    or the GREB file): the box whose north and west are the coordinates the
    first conversion returned, and whose south and east are those the
    second returned.  And whenever a box reaches a consumer, in any run,
    exactly these two conversions were made and the box is made of what
    they returned. *)
Theorem bounding_box_from_two_corners a w :
  (∀ bbox,
     bbox ∈ omap bbox_of (trace (main perform a w)) →
     ∃ x1 y1 x2 y2,
       conversions (trace (main perform a w))
       = [(args.west a, args.north a, 4326, args.epsg a, Return (x1, y1));
          (args.east a, args.south a, 4326, args.epsg a, Return (x2, y2))]
       ∧ bbox = {| north := y1; south := y2; east := x2; west := x1 |})
  ∧ (py_in (args.process a) ["all"; "map"; "gral"] = true →
     no_exception_reached_main (trace (main perform a w)) = true →
     ∃ x1 y1 x2 y2,
       conversions (trace (main perform a w))
       = [(args.west a, args.north a, 4326, args.epsg a, Return (x1, y1));
          (args.east a, args.south a, 4326, args.epsg a, Return (x2, y2))]
       ∧ omap bbox_of (trace (main perform a w))
         = [{| north := y1; south := y2; east := x2; west := x1 |}])
  ∧ (conversions (trace (main perform a w))).*1
    `prefix_of` [(args.west a, args.north a, 4326, args.epsg a);
                 (args.east a, args.south a, 4326, args.epsg a)].
Proof.
  split; [|split; [apply box_is_resolved|]].
  all: unfold conversions;
    destruct (main_trace perform a w) as (start & Hstart & [(e & ->)|(w' & ->)]);
    try destruct (is_Exception e);
    destruct (preliminary_omap start Hstart) as (_ & Hbox & Hconv & _);
    rewrite !omap_app, ?Hbox, ?Hconv; cbn [app].
  1,2: by intros ? ?%elem_of_nil.
  2,3: apply prefix_nil.
  all: unfold main_map, main_gral, location_of;
    destruct (py_in _ ["all"; "map"]) eqn:Hmap,
             (py_in _ ["gral"]) eqn:Hgral;
    try (by rewrite (py_in_not_gral _ _ Hgral) in Hmap).
  1-3: run_calls perform;
    cbn [omap list_omap bbox_of conversion_of north south east west];
    intros bbox Hin;
    first [ by apply elem_of_nil in Hin
          | apply list_elem_of_singleton in Hin as ->; by eexists _, _, _, _ ].
  all: run_calls perform;
    cbn [omap list_omap conversion_of fmap list_fmap fst]; by eexists.
Qed.

(** *** No GRAL file outside mode "gral", nothing else inside *)

Lemma not_gral_branch_outside_gral a :
  py_in (args.process a) ["gral"] = false →
  emits (λ ev, branch_of ev ≠ Some GralBranch) (main perform a).
Proof.
  intros Hp. unfold main, main_body. cbv zeta.
  rewrite (main_gral_skipped a _ Hp).
  unfold main_modules, main_buildings, main_weather, main_highway, main_map.
  emits_rules ltac:(done).
Qed.

Lemma only_gral_branch_in_gral a :
  args.process a = "gral" →
  emits (λ ev, shapefile_call ev = false
               ∧ ∀ b, branch_of ev = Some b → b = GralBranch)
    (main perform a).
Proof.
  intros Hp. destruct (gral_mode_skips a Hp) as (Hb & Hw & Hh & Hm).
  unfold main, main_body. cbv zeta. rewrite Hb, Hw, Hh, Hm.
  unfold main_modules, main_gral.
  emits_rules ltac:(cbn [shapefile_call in_create_shapefile branch_of
                           branch_of_call];
                    split; [done|intros; by simplify_eq]).
Qed.

(** C10: the GRAL files are generated only when [args.process] is exactly
    "gral", and then no call of the buildings, weather, highway or map
    branch is made, nor any call of [create_shapefile]; in mode "all" no
    GRAL file is generated, and the four other branches all run (unless an
    exception reaches the body of [main] and ends the run). *)
Theorem process_dispatch_is_exclusive a w :
  (GralBranch ∈ branches (trace (main perform a w)) →
   args.process a = "gral")
  ∧ (args.process a = "gral" →
     (∀ b, b ∈ branches (trace (main perform a w)) → b = GralBranch)
     ∧ Forall (λ ev, shapefile_call ev = false) (trace (main perform a w)))
  ∧ (args.process a = "all" →
     (GralBranch ∉ branches (trace (main perform a w)))
     ∧ (no_exception_reached_main (trace (main perform a w)) = true →
        ∀ b, b ∈ [BuildingsBranch; WeatherBranch; HighwayBranch; MapBranch] →
             b ∈ branches (trace (main perform a w)))).
Proof.
  assert (GralBranch ∈ branches (trace (main perform a w)) →
          args.process a = "gral") as Honly.
  { intros (ev & Hev & Hbranch)%list_elem_of_omap.
    destruct (py_in (args.process a) ["gral"]) eqn:Hp;
      [by apply py_in_gral|].
    pose proof (not_gral_branch_outside_gral a Hp w) as Hno.
    rewrite Forall_forall in Hno. by apply Hno in Hev. }
  split; [done|]. split.
  - intros Hp. pose proof (only_gral_branch_in_gral a Hp w) as Hall. split.
    + intros b (ev & Hev & Hbranch)%list_elem_of_omap.
      rewrite Forall_forall in Hall. by apply (Hall ev).
    + eapply Forall_impl; [exact Hall|]. by intros ev [? _].
  - intros Hp. split.
    + intros Hin%Honly. congruence.
    + intros Hquiet b Hb. by apply all_mode_runs.
Qed.

End Dispatch.

(** ** The weather slices *)

Section Slices.
Context {W Net : Type}.
Variable perform : ∀ c : call Net, W → outcome (returns c) * W.
Implicit Types (met_file_df weather_df : DataFrame) (r : observation).

Lemma day_then_hour met_file_df day hour :
  slice_by_hour (slice_by_day met_file_df day) hour
  = filter (λ r, fecha r = day ∧ hora r = hour) met_file_df.
Proof.
  unfold slice_by_hour, slice_by_day.
  etrans; [apply list_filter_filter|]. apply list_filter_iff. tauto.
Qed.

(** C4: slicing by day and then by hour gives the rows of the series whose
    date and hour both match, and only them, as they are and in their
    order: the result is the single filter on the conjunction, it is a
    sub-series of the series, and a series without such a row gives the
    empty series.  It is the table [main] writes to the hour file: when the
    weather branch runs with a day and an hour, it writes the whole tables,
    the day slice, and that filter of the met table. *)
Theorem day_then_hour_is_one_filter met_file_df day hour :
  slice_by_hour (slice_by_day met_file_df day) hour
  = filter (λ r, fecha r = day ∧ hora r = hour) met_file_df
  ∧ slice_by_hour (slice_by_day met_file_df day) hour `sublist_of` met_file_df
  ∧ (∀ r, r ∈ slice_by_hour (slice_by_day met_file_df day) hour
          ↔ r ∈ met_file_df ∧ fecha r = day ∧ hora r = hour)
  ∧ (∀ (a : args.t) (w w1 : W) weather_df,
       py_in (args.process a) ["all"; "weather"] = true →
       args.weather_day a = Some day →
       args.weather_hour a = Some hour →
       perform (process_weather_data (args.input_weather_file a)) w
       = (Return (weather_df, met_file_df), w1) →
       result (main_weather perform a w) = Return tt →
       omap written_frame (trace (main_weather perform a w))
       = [(args.output_weather_file a +:+ ".csv", weather_df);
          (args.output_weather_file a +:+ ".met", met_file_df);
          (args.output_weather_file a +:+ "_" +:+ day +:+ ".met",
           filter (λ r, fecha r = day) met_file_df);
          (args.output_weather_file a +:+ "_" +:+ day +:+ "_" +:+ pretty hour
             +:+ ".met",
           filter (λ r, fecha r = day ∧ hora r = hour) met_file_df)]).
Proof.
  split; [apply day_then_hour|]. split; [|split].
  - unfold slice_by_hour, slice_by_day. etrans; apply sublist_filter.
  - intros r. unfold slice_by_hour, slice_by_day.
    rewrite !list_elem_of_filter. tauto.
  - intros a w w1 weather_df Hp Hday Hhour Hperform.
    unfold main_weather. rewrite Hp, Hday, Hhour.
    cbv beta iota zeta delta [bind do result world trace].
    rewrite Hperform. cbv beta iota.
    run_calls perform; cbn [omap list_omap written_frame];
      intros; rewrite ?day_then_hour; by simplify_eq.
Qed.
End Slices.

(** ** The emissions join *)

Section JoinFacts.
Implicit Types (sumo_emissions_df : EmissionsFrame) (highway_gdf : GeoDataFrame).

Lemma join_identifier sumo_emissions_df highway_gdf id :
  id ∈ Join.identifiers
         (Join.combine_sumo_emissions_and_highway_data sumo_emissions_df
            highway_gdf)
  ↔ id ∈ Join.emission_identifiers sumo_emissions_df
    ∧ id ∈ Join.identifiers highway_gdf.
Proof.
  unfold Join.identifiers, Join.emission_identifiers,
    Join.combine_sumo_emissions_and_highway_data.
  rewrite !list_elem_of_fmap. split.
  - intros (row & -> & (e & (s & Hrow & Hs)%list_elem_of_bind & He)%list_elem_of_bind).
    apply list_elem_of_singleton in Hrow as ->.
    apply list_elem_of_filter in Hs as [Hid Hs]. cbn [Join.attach osmid].
    split; [exists e|exists s]; done.
  - intros [(e & -> & He) (s & Hid & Hs)].
    exists (Join.attach e s). split; [done|].
    apply list_elem_of_bind. exists e. split; [|done].
    apply list_elem_of_bind. exists s. split; [by apply list_elem_of_singleton|].
    by apply list_elem_of_filter.
Qed.

(** C5: an identifier is in the joined table if and only if it is in the
    emissions table and in the road segments; emissions for the
    identifiers 1, 2, 3 joined with the segments 2, 3, 4 give rows for 2 and
    3 only. *)
Theorem join_is_inner sumo_emissions_df highway_gdf :
  (∀ id,
     id ∈ Join.identifiers
            (Join.combine_sumo_emissions_and_highway_data sumo_emissions_df
               highway_gdf)
     ↔ id ∈ Join.emission_identifiers sumo_emissions_df
       ∧ id ∈ Join.identifiers highway_gdf)
  ∧ (Join.emission_identifiers sumo_emissions_df = [1; 2; 3] →
     Join.identifiers highway_gdf = [2; 3; 4] →
     Join.identifiers
       (Join.combine_sumo_emissions_and_highway_data sumo_emissions_df
          highway_gdf)
     = [2; 3]).
Proof.
  split; [intros id; apply join_identifier|].
  unfold Join.identifiers, Join.emission_identifiers,
    Join.combine_sumo_emissions_and_highway_data.
  destruct sumo_emissions_df as [|e1 [|e2 [|e3 [|]]]]; try done.
  destruct highway_gdf as [|s2 [|s3 [|s4 [|]]]]; try done.
  intros [= H1 H2 H3] [= H4 H5 H6].
  cbn [mbind list_bind app]. rewrite !app_nil_r.
  rewrite H1, H2, H3. cbn [filter list_filter].
  repeat case_decide; try lia.
  cbn [mbind list_bind app fmap list_fmap Join.attach osmid]. congruence.
Qed.
End JoinFacts.

(** * The properties at work on the concrete environment *)

(** C1, the claim as stated: a complete run in mode "gral" does not follow
    the specified order (Meteogpt first); the GREB file comes first and
    meteogpt.all third. *)
Lemma specified_order_is_not_followed :
  args.process (Example.scenario "gral") = "gral"
  ∧ every_call_returned (trace Example.complete_run) = true
  ∧ stages (trace Example.complete_run)
    = [GREB; InDat; Meteogpt; OtherRequiredFiles; BuildingsFile; LineEmissions;
       OptionalFiles]
  ∧ stages (trace Example.complete_run) ≠ specified_order.
Proof. repeat split; by vm_compute. Qed.

Lemma files_generated_in_order_witness :
  args.process (Example.scenario "gral") = "gral"
  ∧ every_call_returned (trace Example.complete_run) = true
  ∧ stages (trace Example.complete_run) = generation_order.
Proof.
  split; [reflexivity|]. split; [by vm_compute|].
  destruct (files_generated_in_order
              (Example.perform Example.to_metres Example.no_fault)
              (Example.scenario "gral") []) as [_ Hcomplete].
  apply Hcomplete; [reflexivity|by vm_compute].
Defined.

(** C2, the claim as stated: with a south-oriented target system the
    projection of the well ordered box of the scenario has its north below
    its south and its east before its west; nothing is raised and nothing is
    printed, the inverted box goes to [create_greb_file], and all the files
    are generated from it. *)
Lemma inverted_projection_is_not_rejected :
  well_ordered (location_of (Example.scenario "gral")) = true
  ∧ omap bbox_of (trace Example.inverted_run) = [Example.inverted_box]
  ∧ well_ordered Example.inverted_box = false
  ∧ SFltb (north Example.inverted_box) (south Example.inverted_box) = true
  ∧ SFltb (east Example.inverted_box) (west Example.inverted_box) = true
  ∧ every_call_returned (trace Example.inverted_run) = true
  ∧ omap printed (trace Example.inverted_run) = []
  ∧ stages (trace Example.inverted_run) = generation_order.
Proof. repeat split; by vm_compute. Qed.

Lemma projected_box_is_not_checked_witness :
  omap bbox_of (trace Example.inverted_run) = [Example.inverted_box].
Proof.
  apply (projected_box_is_not_checked
           (Example.perform Example.south_oriented Example.no_fault)
           (Example.scenario "gral") []
           (Float64.literal 200 1, Float64.literal 101 1, 4326, 32633)
           (SFopp (Float64.literal 200 1)) (SFopp (Float64.literal 101 1))
           (Float64.literal 201 1, Float64.literal 100 1, 4326, 32633)
           (SFopp (Float64.literal 201 1)) (SFopp (Float64.literal 100 1))).
  by vm_compute.
Defined.

Lemma in_dat_latitude_is_geographic_mean_witness :
  args.process (Example.scenario "gral") = "gral"
  ∧ every_call_returned (trace Example.complete_run) = true
  ∧ omap in_dat_latitude (trace Example.complete_run) = [Float64.literal 1005 2].
Proof.
  split; [reflexivity|]. split; [by vm_compute|].
  destruct (in_dat_latitude_is_geographic_mean
              (Example.perform Example.to_metres Example.no_fault)
              (Example.scenario "gral") []) as (_ & Hcomplete & Hscenario).
  etrans; [apply Hcomplete; [reflexivity|by vm_compute]|].
  exact (f_equal (λ latitude, [latitude]) Hscenario).
Defined.

Lemma day_then_hour_is_one_filter_witness :
  omap written_frame
    (trace (main_weather (Example.perform Example.to_metres Example.no_fault)
              (Example.scenario "weather") []))
  = [("weather.csv", Example.weather);
     ("weather.met", Example.weather);
     ("weather_2024-01-02.met", drop 2 Example.weather);
     ("weather_2024-01-02_14.met", take 2 (drop 3 Example.weather))].
Proof.
  destruct (day_then_hour_is_one_filter
              (Example.perform Example.to_metres Example.no_fault)
              Example.weather "2024-01-02" 14) as (_ & _ & _ & Hwritten).
  etrans; [|by vm_compute].
  apply (Hwritten (Example.scenario "weather") [] [] Example.weather);
    reflexivity.
Defined.

Lemma join_is_inner_witness :
  Join.emission_identifiers Example.emissions = [1; 2; 3]
  ∧ Join.identifiers Example.segments = [2; 3; 4]
  ∧ Join.identifiers
      (Join.combine_sumo_emissions_and_highway_data Example.emissions
         Example.segments)
    = [2; 3].
Proof.
  split; [reflexivity|]. split; [reflexivity|].
  destruct (join_is_inner Example.emissions Example.segments) as [_ Hexample].
  apply Hexample; reflexivity.
Defined.

Lemma greb_completes_before_in_dat_witness :
  stage_of (default (Printed "") (trace Example.complete_run !! 8%nat))
  = Some InDat
  ∧ ∃ pre' bbox slices before after,
      take 8 (trace Example.complete_run)
      = pre' ++ [Called (create_greb_file bbox slices) before (Return tt) after]
      ∧ Example.perform Example.to_metres Example.no_fault
          (create_greb_file bbox slices) before
        = (Return tt, after)
      ∧ world_before (default (Printed "") (trace Example.complete_run !! 8%nat))
        = Some after.
Proof.
  split; [by vm_compute|].
  apply (greb_completes_before_in_dat
           (Example.perform Example.to_metres Example.no_fault)
           (Example.scenario "gral") []
           (take 8 (trace Example.complete_run))
           (default (Printed "") (trace Example.complete_run !! 8%nat))
           (drop 9 (trace Example.complete_run))); by vm_compute.
Defined.

Lemma bounding_box_from_two_corners_witness :
  (py_in (args.process (Example.scenario "map")) ["all"; "map"; "gral"] = true
   ∧ no_exception_reached_main (trace Example.map_run) = true
   ∧ omap bbox_of (trace Example.map_run) = [Example.projected_box]
   ∧ ∃ x1 y1 x2 y2,
       conversions (trace Example.map_run)
       = [(Float64.literal 200 1, Float64.literal 101 1, 4326, 32633,
           Return (x1, y1));
          (Float64.literal 201 1, Float64.literal 100 1, 4326, 32633,
           Return (x2, y2))]
       ∧ omap bbox_of (trace Example.map_run)
         = [{| north := y1; south := y2; east := x2; west := x1 |}])
  ∧ (∃ x1 y1 x2 y2,
       conversions (trace Example.complete_run)
       = [(Float64.literal 200 1, Float64.literal 101 1, 4326, 32633,
           Return (x1, y1));
          (Float64.literal 201 1, Float64.literal 100 1, 4326, 32633,
           Return (x2, y2))]
       ∧ Example.projected_box
         = {| north := y1; south := y2; east := x2; west := x1 |}).
Proof.
  split.
  - split; [reflexivity|]. split; [by vm_compute|]. split; [by vm_compute|].
    destruct (bounding_box_from_two_corners
                (Example.perform Example.to_metres Example.no_fault)
                (Example.scenario "map") []) as (_ & Hrun & _).
    apply Hrun; by vm_compute.
  - assert (omap bbox_of (trace Example.complete_run) = [Example.projected_box])
      as Hbox by (by vm_compute).
    destruct (bounding_box_from_two_corners
                (Example.perform Example.to_metres Example.no_fault)
                (Example.scenario "gral") []) as (Hbbox & _).
    apply (Hbbox Example.projected_box).
    unfold Example.complete_run in Hbox. rewrite Hbox. apply list_elem_of_here.
Defined.

(** C8, the claim as stated: not every exception is caught.  The user
    interrupts the writing of the GREB file: the [KeyboardInterrupt] is no
    instance of [Exception], the handler of [main] does not apply, nothing
    is printed, and [main] raises the interrupt to its caller. *)
Lemma interrupt_leaves_main :
  raised_to_main (default (Printed "") (trace Example.interrupted_run !! 7%nat))
  = Some Example.interrupted
  ∧ is_Exception Example.interrupted = false
  ∧ result Example.interrupted_run = Raise Example.interrupted
  ∧ omap printed (trace Example.interrupted_run) = []
  ∧ drop 8 (trace Example.interrupted_run) = [].
Proof. repeat split; by vm_compute. Qed.

Lemma main_catches_exceptions_witness :
  (raised_to_main (default (Printed "") (trace Example.failed_run !! 7%nat))
   = Some Example.disk_full
   ∧ is_Exception Example.disk_full = true
   ∧ result Example.failed_run = Return tt
   ∧ drop 8 (trace Example.failed_run)
     = [Printed ("An error occurred: " +:+ str Example.disk_full)]
   ∧ world_after (default (Printed "") (trace Example.failed_run !! 7%nat))
     = Some (world Example.failed_run))
  ∧ (raised_to_main
       (default (Printed "") (trace Example.interrupted_run !! 7%nat))
     = Some Example.interrupted
     ∧ is_Exception Example.interrupted = false
     ∧ result Example.interrupted_run = Raise Example.interrupted
     ∧ drop 8 (trace Example.interrupted_run) = []).
Proof.
  split.
  - split; [by vm_compute|]. split; [reflexivity|].
    destruct (main_catches_exceptions
                (Example.perform Example.to_metres Example.greb_fails)
                (Example.scenario "gral") []
                (take 7 (trace Example.failed_run))
                (default (Printed "") (trace Example.failed_run !! 7%nat))
                Example.disk_full
                (drop 8 (trace Example.failed_run)))
      as (Hworld & Hcaught & _); [by vm_compute..|].
    destruct (Hcaught eq_refl) as [Hresult Hpost].
    split; [exact Hresult|]. split; [exact Hpost|exact Hworld].
  - split; [by vm_compute|]. split; [reflexivity|].
    destruct (main_catches_exceptions
                (Example.perform Example.to_metres Example.greb_interrupted)
                (Example.scenario "gral") []
                (take 7 (trace Example.interrupted_run))
                (default (Printed "") (trace Example.interrupted_run !! 7%nat))
                Example.interrupted
                (drop 8 (trace Example.interrupted_run)))
      as (_ & _ & Hpassed); [by vm_compute..|].
    exact (Hpassed eq_refl).
Defined.

(** C9, the claim as stated: [create_shapefile] does propagate some
    exceptions.  The user interrupts the writing of the shapefile: the
    [KeyboardInterrupt] is no instance of [Exception], nothing is logged
    after "Creating shapefile...", and [create_shapefile] raises the
    interrupt to its caller.  In mode "all" the pipeline does not go past
    that write: the interrupt goes through [main], and no branch after the
    buildings runs. *)
Lemma interrupt_leaves_create_shapefile :
  raised (default (Printed "") (trace Example.interrupted_write !! 3%nat))
  = Some Example.interrupted
  ∧ is_Exception Example.interrupted = false
  ∧ result Example.interrupted_write = Raise Example.interrupted
  ∧ omap printed (trace Example.interrupted_write) = ["Creating shapefile..."]
  ∧ result Example.interrupted_all_run = Raise Example.interrupted
  ∧ branches (trace Example.interrupted_all_run) = [BuildingsBranch]
  ∧ omap printed (trace Example.interrupted_all_run)
    = ["Creating shapefile..."].
Proof. repeat split; by vm_compute. Qed.

Lemma create_shapefile_catches_exceptions_witness :
  (raised (default (Printed "") (trace Example.failed_write !! 3%nat))
   = Some Example.empty_table
   ∧ is_Exception Example.empty_table = true
   ∧ result Example.failed_write = Return tt
   ∧ drop 4 (trace Example.failed_write)
     = [Printed ("Failed to create shapefile: " +:+ str Example.empty_table)])
  ∧ (raised (default (Printed "") (trace Example.interrupted_write !! 3%nat))
     = Some Example.interrupted
     ∧ is_Exception Example.interrupted = false
     ∧ result Example.interrupted_write = Raise Example.interrupted
     ∧ drop 4 (trace Example.interrupted_write) = []).
Proof.
  split.
  - split; [by vm_compute|]. split; [reflexivity|].
    destruct (create_shapefile_catches_exceptions
                (Example.perform Example.to_metres Example.to_file_fails)
                [] "EPSG:32633" "out" "buildings.shp" [])
      as (Hcaught & _).
    apply (Hcaught (take 3 (trace Example.failed_write))
             (default (Printed "") (trace Example.failed_write !! 3%nat)));
      by vm_compute.
  - split; [by vm_compute|]. split; [reflexivity|].
    destruct (create_shapefile_catches_exceptions
                (Example.perform Example.to_metres Example.to_file_interrupted)
                [] "EPSG:32633" "out" "buildings.shp" [])
      as (_ & Hpassed & _).
    destruct (Hpassed (take 3 (trace Example.interrupted_write))
                (default (Printed "") (trace Example.interrupted_write !! 3%nat))
                Example.interrupted [])
      as (Hresult & _ & _); [by vm_compute..|].
    split; [exact Hresult|by vm_compute].
Defined.

Lemma process_dispatch_is_exclusive_witness :
  (args.process (Example.scenario "all") = "all"
   ∧ no_exception_reached_main (trace Example.all_run) = true
   ∧ (GralBranch ∉ branches (trace Example.all_run))
   ∧ ∀ b, b ∈ [BuildingsBranch; WeatherBranch; HighwayBranch; MapBranch] →
          b ∈ branches (trace Example.all_run))
  ∧ (args.process (Example.scenario "gral") = "gral"
     ∧ (∀ b, b ∈ branches (trace Example.complete_run) → b = GralBranch)
     ∧ Forall (λ ev, shapefile_call ev = false) (trace Example.complete_run)).
Proof.
  split.
  - destruct (process_dispatch_is_exclusive
                (Example.perform Example.to_metres Example.to_file_fails)
                (Example.scenario "all") []) as (_ & _ & Hall).
    destruct (Hall eq_refl) as [Hnone Hfour].
    split; [reflexivity|]. split; [by vm_compute|]. split; [exact Hnone|].
    apply Hfour. by vm_compute.
  - destruct (process_dispatch_is_exclusive
                (Example.perform Example.to_metres Example.no_fault)
                (Example.scenario "gral") []) as (_ & Hgral & _).
    split; [reflexivity|]. exact (Hgral eq_refl).
Defined.

(** * More of [main.py] *)

(** ** The parts of a run *)

Section Parts.
Context {W Net : Type}.
Variable perform : ∀ c : call Net, W → outcome (returns c) * W.
Implicit Types (w : W) (ev : event W Net) (a : args.t).

(** The trace of [main]: the constructors, then what each branch emitted, in
    the order of the source, then the diagnostic of [main] if an instance
    of [Exception] reached it. *)
Lemma main_blocks a w :
  ∃ tb tw th tm tg td,
    trace (main perform a w)
    = trace (main_modules perform a (location_of a) w)
      ++ tb ++ tw ++ th ++ tm ++ tg ++ td
    ∧ part_of (main_buildings perform a) tb
    ∧ part_of (main_weather perform a) tw
    ∧ part_of (main_highway perform a) th
    ∧ part_of (main_map perform a (location_of a)) tm
    ∧ part_of (main_gral perform a (location_of a)) tg
    ∧ (td = [] ∨ ∃ e, td = [Printed ("An error occurred: " +:+ str e)]).
Proof.
  unfold main, main_body, part_of. cbv zeta.
  rewrite trace_try_except_bind.
  destruct (result (main_modules _ _ _ w)) as [[]|e].
  2:{ exists [], [], [], [], [], (if is_Exception e
         then [Printed ("An error occurred: " +:+ str e)] else []).
      cbn [print trace app]. repeat split; eauto.
      destruct (is_Exception e); eauto. }
  set (w1 := world (main_modules _ _ _ w)).
  rewrite trace_try_except_bind.
  destruct (result (main_buildings _ _ w1)) as [[]|e].
  2:{ exists (trace (main_buildings perform a w1)), [], [], [], [],
        (if is_Exception e
         then [Printed ("An error occurred: " +:+ str e)] else []).
      cbn [print trace app]. repeat split; eauto.
      destruct (is_Exception e); eauto. }
  set (w2 := world (main_buildings _ _ w1)).
  rewrite trace_try_except_bind.
  destruct (result (main_weather _ _ w2)) as [[]|e].
  2:{ exists (trace (main_buildings perform a w1)),
        (trace (main_weather perform a w2)), [], [], [],
        (if is_Exception e
         then [Printed ("An error occurred: " +:+ str e)] else []).
      cbn [print trace app]. repeat split; eauto.
      destruct (is_Exception e); eauto. }
  set (w3 := world (main_weather _ _ w2)).
  rewrite trace_try_except_bind.
  destruct (result (main_highway _ _ w3)) as [[]|e].
  2:{ exists (trace (main_buildings perform a w1)),
        (trace (main_weather perform a w2)),
        (trace (main_highway perform a w3)), [], [],
        (if is_Exception e
         then [Printed ("An error occurred: " +:+ str e)] else []).
      cbn [print trace app]. repeat split; eauto.
      destruct (is_Exception e); eauto. }
  set (w4 := world (main_highway _ _ w3)).
  rewrite trace_try_except_bind.
  destruct (result (main_map _ _ _ w4)) as [[]|e].
  2:{ exists (trace (main_buildings perform a w1)),
        (trace (main_weather perform a w2)),
        (trace (main_highway perform a w3)),
        (trace (main_map perform a (location_of a) w4)), [],
        (if is_Exception e
         then [Printed ("An error occurred: " +:+ str e)] else []).
      cbn [print trace app]. repeat split; eauto.
      destruct (is_Exception e); eauto. }
  set (w5 := world (main_map _ _ _ w4)).
  rewrite trace_try_except.
  exists (trace (main_buildings perform a w1)),
    (trace (main_weather perform a w2)),
    (trace (main_highway perform a w3)),
    (trace (main_map perform a (location_of a) w4)),
    (trace (main_gral perform a (location_of a) w5)).
  destruct (result (main_gral _ _ _ w5)) as [[]|e].
  - exists []. repeat split; eauto.
  - exists (if is_Exception e
            then [Printed ("An error occurred: " +:+ str e)] else []).
    cbn [print trace app]. repeat split; eauto.
    destruct (is_Exception e); eauto.
Qed.

Lemma main_modules_preliminary_branch a location w :
  Forall (λ ev, branch_of ev = None)
    (trace (main_modules perform a location w)).
Proof.
  revert w. change (emits (λ ev, branch_of ev = None)
                      (main_modules perform a location)).
  unfold main_modules. emits_rules ltac:(done).
Qed.

(** A view that a part never shows is empty on what that part emitted. *)
Lemma part_silent {A B} (f : event W Net → option B) (m : M W Net A) t :
  emits (λ ev, f ev = None) m → part_of m t → omap f t = [].
Proof.
  intros Hm [->|(w & ->)]; [done|]. apply omap_none, Hm.
Qed.

(** A view that shows one value only is a repetition of that value. *)
Lemma omap_uniform {A B} (f : A → option B) (y : B) (l : list A) :
  Forall (λ x, ∀ b, f x = Some b → b = y) l →
  omap f l = replicate (length (omap f l)) y.
Proof.
  induction 1 as [|x l Hx _ IH]; [done|]. cbn.
  destruct (f x) as [b|] eqn:Hf; [|done].
  cbn. rewrite (Hx b eq_refl). by f_equal.
Qed.

Lemma part_uniform {A B} (f : event W Net → option B) y (m : M W Net A) t :
  emits (λ ev, ∀ b, f ev = Some b → b = y) m →
  part_of m t →
  omap f t = replicate (length (omap f t)) y.
Proof.
  intros Hm [->|(w & ->)]; [done|]. apply omap_uniform, Hm.
Qed.

(** ** The order of the branches *)

(** X1: in every run the calls of the branches come in the order of the
    source: those of the buildings branch, then weather, then highway, then
    map, then GRAL; no branch is taken up again after a later one has
    started. *)
Theorem branches_in_source_order a w :
  ∃ nb nw nh nm ng,
    branches (trace (main perform a w))
    = replicate nb BuildingsBranch ++ replicate nw WeatherBranch
      ++ replicate nh HighwayBranch ++ replicate nm MapBranch
      ++ replicate ng GralBranch.
Proof.
  destruct (main_blocks a w)
    as (tb & tw & th & tm & tg & td & -> & Hb & Hw & Hh & Hm & Hg & Hd).
  unfold branches. rewrite !omap_app.
  rewrite (omap_none branch_of (trace (main_modules _ _ _ _))).
  2:{ apply (main_modules_preliminary_branch). }
  eapply part_uniform in Hb, Hw, Hh, Hm, Hg.
  - rewrite Hb, Hw, Hh, Hm, Hg.
    replace (omap branch_of td) with (@nil branch)
      by (by destruct Hd as [->|(e & ->)]).
    rewrite app_nil_r. cbn [app]. eauto 10.
  - unfold main_gral.
    emits_rules ltac:(cbn [branch_of branch_of_call]; intros; by simplify_eq).
  - unfold main_map.
    emits_rules ltac:(cbn [branch_of branch_of_call]; intros; by simplify_eq).
  - unfold main_highway.
    emits_rules ltac:(cbn [branch_of branch_of_call]; intros; by simplify_eq).
  - unfold main_weather.
    emits_rules ltac:(cbn [branch_of branch_of_call]; intros; by simplify_eq).
  - unfold main_buildings.
    emits_rules ltac:(cbn [branch_of branch_of_call]; intros; by simplify_eq).
Qed.

(** ** The module objects *)

Lemma main_modules_run a location w :
  (∃ e, result (main_modules perform a location w) = Raise e
        ∧ Forall (λ ev, after_construction ev = false)
            (trace (main_modules perform a location w)))
  ∨ (∃ w1 w2 w3 w4 w5,
       result (main_modules perform a location w) = Return tt
       ∧ trace (main_modules perform a location w)
         = [Called (new_Buildings location) w (Return tt) w1;
            Called (new_Weather (args.base_directory a)) w1 (Return tt) w2;
            Called (new_Highways location) w2 (Return tt) w3;
            Called (new_Maps (args.base_directory a)) w3 (Return tt) w4;
            Called (new_GRAL (args.base_directory a) (args.met_file a)
                      (args.buildings_shapefile_filename a)
                      (args.highways_shapefile_filename a))
              w4 (Return tt) w5]).
Proof.
  unfold main_modules. run_calls perform;
    repeat match goal with u : returns _ |- _ => destruct u end;
    first [ right; by eexists _, _, _, _, _
          | left; eexists; split; [done|by repeat constructor] ].
Qed.

(** X2: whatever the mode, a call other than a constructor is made only
    after the five module objects were built, in the order [Buildings],
    [Weather], [Highways], [Maps], [GRAL], each constructor having returned;
    the two processors of geometry get the geographic box of the command
    line.  A constructor that raises ends the run before any processing. *)
Theorem modules_are_built_first a w ev :
  ev ∈ trace (main perform a w) →
  after_construction ev = true →
  ∃ w1 w2 w3 w4 w5 rest,
    trace (main perform a w)
    = [Called (new_Buildings (location_of a)) w (Return tt) w1;
       Called (new_Weather (args.base_directory a)) w1 (Return tt) w2;
       Called (new_Highways (location_of a)) w2 (Return tt) w3;
       Called (new_Maps (args.base_directory a)) w3 (Return tt) w4;
       Called (new_GRAL (args.base_directory a) (args.met_file a)
                 (args.buildings_shapefile_filename a)
                 (args.highways_shapefile_filename a))
         w4 (Return tt) w5]
      ++ rest.
Proof.
  unfold main, main_body. cbv zeta. rewrite trace_try_except_bind.
  destruct (main_modules_run a (location_of a) w)
    as [(e & -> & Hquiet)|(w1 & w2 & w3 & w4 & w5 & -> & ->)].
  - cbn [print trace]. intros Hin Hev. exfalso.
    apply elem_of_app in Hin as [Hin|Hin].
    + rewrite Forall_forall in Hquiet. apply Hquiet in Hin. congruence.
    + destruct (is_Exception e); [|by apply elem_of_nil in Hin].
      apply list_elem_of_singleton in Hin. by subst.
  - intros _ _. by eexists w1, w2, w3, w4, w5, _.
Qed.

(** ** The modes *)

Lemma unknown_mode_skips a :
  py_in (args.process a)
    ["all"; "buildings"; "weather"; "highway"; "map"; "gral"] = false →
  main_buildings perform a = pure tt
  ∧ main_weather perform a = pure tt
  ∧ main_highway perform a = pure tt
  ∧ main_map perform a (location_of a) = pure tt
  ∧ main_gral perform a (location_of a) = pure tt.
Proof.
  unfold py_in, main_buildings, main_weather, main_highway, main_map,
    main_gral. cbn [existsb].
  intros H. repeat (apply orb_false_elim in H as [? H]).
  unfold py_in. cbn [existsb].
  repeat match goal with E : String.eqb _ _ = false |- _ => rewrite E; clear E end.
  done.
Qed.

(** X3: a value of [args.process] that is none of "all", "buildings",
    "weather", "highway", "map" and "gral" is not reported: [main] builds the
    five module objects and does nothing else, and when the constructors
    return it prints nothing and leaves the world as they left it. *)
Theorem unknown_mode_is_silent a w :
  py_in (args.process a)
    ["all"; "buildings"; "weather"; "highway"; "map"; "gral"] = false →
  Forall (λ ev, after_construction ev = false) (trace (main perform a w))
  ∧ (every_call_returned (trace (main perform a w)) = true →
     omap printed (trace (main perform a w)) = []
     ∧ length (trace (main perform a w)) = 5%nat
     ∧ world (main perform a w)
       = world (main_modules perform a (location_of a) w)).
Proof.
  intros (Hb & Hw & Hh & Hm & Hg)%unknown_mode_skips.
  unfold main, main_body, every_call_returned. cbv zeta.
  rewrite Hb, Hw, Hh, Hm, Hg. unfold main_modules.
  run_calls perform; cbn [forallb raised andb omap list_omap printed length];
    (split; [by repeat constructor|intros; by simplify_eq]).
Qed.

Lemma single_mode_skips a p :
  args.process a = p →
  (py_in p ["all"; "buildings"] = false → main_buildings perform a = pure tt)
  ∧ (py_in p ["all"; "weather"] = false → main_weather perform a = pure tt)
  ∧ (py_in p ["all"; "highway"] = false → main_highway perform a = pure tt)
  ∧ (py_in p ["all"; "map"] = false →
     main_map perform a (location_of a) = pure tt)
  ∧ (py_in p ["gral"] = false →
     main_gral perform a (location_of a) = pure tt).
Proof.
  intros <-. unfold main_buildings, main_weather, main_highway, main_map,
    main_gral. repeat split; by intros ->.
Qed.

(** X4: the modes "buildings", "weather", "highway" and "map" each run
    their own branch and no other.  A run that no exception ends makes
    calls of the branch of its mode, and every call of a branch in any run
    is a call of the branch of the mode.  The coordinate transformer is
    used in mode "map" only, and no shapefile is written in the modes
    "weather" and "map". *)
Theorem single_branch_modes a w B :
  (args.process a, B)
    ∈ [("buildings", BuildingsBranch); ("weather", WeatherBranch);
       ("highway", HighwayBranch); ("map", MapBranch)] →
  (no_exception_reached_main (trace (main perform a w)) = true →
   B ∈ branches (trace (main perform a w)))
  ∧ (∀ b, b ∈ branches (trace (main perform a w)) → b = B)
  ∧ (B ≠ MapBranch → conversions (trace (main perform a w)) = [])
  ∧ (B = WeatherBranch ∨ B = MapBranch →
     Forall (λ ev, shapefile_call ev = false) (trace (main perform a w))).
Proof.
  intros Hmode. split.
  { intros Hquiet%quiet_main_body_returns.
    destruct (main_body_returns perform a w Hquiet)
      as (w1 & w2 & w3 & w4 & w5 & H1 & H2 & H3 & H4 & _ & Htr).
    unfold main. rewrite trace_try_except, Hquiet, app_nil_r, Htr.
    unfold branches in *. rewrite !omap_app, !elem_of_app.
    repeat (apply elem_of_cons in Hmode as [[= Hp ->]|Hmode]);
      [..|by apply elem_of_nil in Hmode].
    - apply main_buildings_runs in H1; [tauto|by rewrite Hp].
    - apply main_weather_runs in H2; [tauto|by rewrite Hp].
    - apply main_highway_runs in H3; [tauto|by rewrite Hp].
    - apply main_map_runs in H4; [tauto|by rewrite Hp]. }
  assert (emits (λ ev, (∀ b, branch_of ev = Some b → b = B)
                       ∧ (B ≠ MapBranch → conversion_of ev = None)
                       ∧ (B = WeatherBranch ∨ B = MapBranch →
                          shapefile_call ev = false))
            (main perform a)) as Hemits.
  { repeat (apply elem_of_cons in Hmode as [[= Hp ->]|Hmode]);
      [..|by apply elem_of_nil in Hmode];
      destruct (single_mode_skips a _ Hp) as (Hb & Hw & Hh & Hm & Hg);
      unfold main, main_body; cbv zeta;
      rewrite ?(Hb eq_refl), ?(Hw eq_refl), ?(Hh eq_refl), ?(Hm eq_refl),
        ?(Hg eq_refl);
      unfold main_modules, main_buildings, main_weather, main_highway,
        main_map;
      emits_rules ltac:(cbn [branch_of branch_of_call conversion_of
                               shapefile_call in_create_shapefile];
                        repeat split; intros; destruct_or?; by simplify_eq). }
  specialize (Hemits w). rewrite Forall_forall in Hemits. split; [|split].
  - intros b (ev & Hev & Hbranch)%list_elem_of_omap.
    by apply (Hemits ev Hev).
  - intros HB. apply omap_none, Forall_forall. intros ev Hev.
    by apply (Hemits ev Hev).
  - intros HB. apply Forall_forall. intros ev Hev. by apply (Hemits ev Hev).
Qed.

(** ** What the parts never show *)

Lemma modules_silent {B} (f : event W Net → option B) a location w :
  (∀ c w0 r w1, constructor_call c = true → f (Called c w0 r w1) = None) →
  omap f (trace (main_modules perform a location w)) = [].
Proof.
  intros Hf. apply omap_none. revert w.
  change (emits (λ ev, f ev = None) (main_modules perform a location)).
  unfold main_modules. emits_rules ltac:(by apply Hf).
Qed.

Lemma diagnostic_silent {B} (f : event W Net → option B) td :
  (∀ line, f (Printed line) = None) →
  (td = [] ∨ ∃ e, td = [Printed ("An error occurred: " +:+ str e)]) →
  omap f td = [].
Proof. intros Hf [->|(e & ->)]; [done|]. cbn. by rewrite Hf. Qed.

End Parts.

(** Prove that a part of [main] never shows the view [f]. *)
Tactic Notation "silent" uconstr(f) "in" hyp(H) :=
  apply (part_silent f) in H;
  [|unfold main_buildings, main_weather, main_highway, main_map, main_gral;
    emits_rules ltac:(done)].

Section Flows.
Context {W Net : Type}.
Variable perform : ∀ c : call Net, W → outcome (returns c) * W.
Implicit Types (w : W) (ev : event W Net) (a : args.t).

(** ** The weather files *)

(** What the weather branch writes, from the two tables
    [process_weather_data] returned. *)
Lemma weather_part a t :
  part_of (main_weather perform a) t →
  (omap weather_tables t = [] → omap written_frame t = [])
  ∧ ∀ weather_df met_file_df,
      (weather_df, met_file_df) ∈ omap weather_tables t →
      (args.weather_day a = None →
       omap written_frame t
       `prefix_of` [(args.output_weather_file a +:+ ".csv", weather_df);
                    (args.output_weather_file a +:+ ".met", met_file_df)]
       ∧ (no_exception_reached_main t = true →
          omap written_frame t
          = [(args.output_weather_file a +:+ ".csv", weather_df);
             (args.output_weather_file a +:+ ".met", met_file_df)]))
      ∧ (∀ day,
           args.weather_day a = Some day →
           args.weather_hour a = None →
           omap written_frame t
           `prefix_of` [(args.output_weather_file a +:+ ".csv", weather_df);
                        (args.output_weather_file a +:+ ".met", met_file_df);
                        (args.output_weather_file a +:+ "_" +:+ day +:+ ".met",
                         slice_by_day met_file_df day)]
           ∧ (no_exception_reached_main t = true →
              omap written_frame t
              = [(args.output_weather_file a +:+ ".csv", weather_df);
                 (args.output_weather_file a +:+ ".met", met_file_df);
                 (args.output_weather_file a +:+ "_" +:+ day +:+ ".met",
                  slice_by_day met_file_df day)])).
Proof.
  intros [->|(w & ->)].
  { split; [done|]. by intros ? ? ?%elem_of_nil. }
  unfold main_weather, no_exception_reached_main.
  destruct (py_in _ _).
  2:{ split; [done|]. by intros ? ? ?%elem_of_nil. }
  run_calls perform;
    cbn [omap list_omap weather_tables written_frame forallb raised_to_main
           in_create_shapefile andb];
    (split; [done|]);
    intros weather_df met_file_df Hin;
    first [ by apply elem_of_nil in Hin
          | apply list_elem_of_singleton in Hin; simplify_eq ];
    (split; [intros Hday|intros day Hday Hhour]); simplify_eq;
    (split; [by eexists|intros; by simplify_eq]).
Qed.

(** X5: the hour is looked at only when a day is given.  Without
    [args.weather_day] the run writes the two tables
    [process_weather_data] returned, whole, and no slice, whatever
    [args.weather_hour] is; with a day and no hour it writes the day slice
    of the met table after them, and nothing else.  In every run what was
    written is a beginning of these files, with these tables; in a run that
    no exception ends it is all of them; and nothing is written when
    [process_weather_data] did not return. *)
Theorem hour_slice_needs_a_day a w :
  (omap weather_tables (trace (main perform a w)) = [] →
   omap written_frame (trace (main perform a w)) = [])
  ∧ ∀ weather_df met_file_df,
      (weather_df, met_file_df)
        ∈ omap weather_tables (trace (main perform a w)) →
      (args.weather_day a = None →
       omap written_frame (trace (main perform a w))
       `prefix_of` [(args.output_weather_file a +:+ ".csv", weather_df);
                    (args.output_weather_file a +:+ ".met", met_file_df)]
       ∧ (no_exception_reached_main (trace (main perform a w)) = true →
          omap written_frame (trace (main perform a w))
          = [(args.output_weather_file a +:+ ".csv", weather_df);
             (args.output_weather_file a +:+ ".met", met_file_df)]))
      ∧ (∀ day,
           args.weather_day a = Some day →
           args.weather_hour a = None →
           omap written_frame (trace (main perform a w))
           `prefix_of` [(args.output_weather_file a +:+ ".csv", weather_df);
                        (args.output_weather_file a +:+ ".met", met_file_df);
                        (args.output_weather_file a +:+ "_" +:+ day +:+ ".met",
                         slice_by_day met_file_df day)]
           ∧ (no_exception_reached_main (trace (main perform a w)) = true →
              omap written_frame (trace (main perform a w))
              = [(args.output_weather_file a +:+ ".csv", weather_df);
                 (args.output_weather_file a +:+ ".met", met_file_df);
                 (args.output_weather_file a +:+ "_" +:+ day +:+ ".met",
                  slice_by_day met_file_df day)])).
Proof.
  destruct (main_blocks perform a w)
    as (tb & tw & th & tm & tg & td & Htr & Hb & Hw & Hh & Hm & Hg & Hd).
  assert (no_exception_reached_main (trace (main perform a w)) = true →
          no_exception_reached_main tw = true) as Hquiet.
  { rewrite Htr. unfold no_exception_reached_main.
    rewrite !forallb_app, !andb_true_iff. tauto. }
  assert (omap written_frame (trace (main perform a w))
          = omap written_frame tw) as ->.
  { rewrite Htr.
    silent written_frame in Hb. silent written_frame in Hh.
    silent written_frame in Hm. silent written_frame in Hg.
    rewrite !omap_app, Hb, Hh, Hm, Hg.
    rewrite (modules_silent perform written_frame) by (by intros []).
    rewrite (diagnostic_silent written_frame td) by done.
    by rewrite app_nil_r. }
  assert (omap weather_tables (trace (main perform a w))
          = omap weather_tables tw) as ->.
  { rewrite Htr.
    silent weather_tables in Hb. silent weather_tables in Hh.
    silent weather_tables in Hm. silent weather_tables in Hg.
    rewrite !omap_app, Hb, Hh, Hm, Hg.
    rewrite (modules_silent perform weather_tables) by (by intros []).
    rewrite (diagnostic_silent weather_tables td) by done.
    by rewrite app_nil_r. }
  destruct (weather_part a tw Hw) as [Hnone Htables].
  split; [exact Hnone|].
  intros weather_df met_file_df Hin.
  destruct (Htables weather_df met_file_df Hin) as [Hwhole Hday].
  split.
  - intros Hno. destruct (Hwhole Hno) as [Hprefix Hall].
    split; [exact Hprefix|]. intros Hq. by apply Hall, Hquiet.
  - intros day Hsome Hno. destruct (Hday day Hsome Hno) as [Hprefix Hall].
    split; [exact Hprefix|]. intros Hq. by apply Hall, Hquiet.
Qed.

(** ** The shapefiles *)

(** X6: [create_shapefile] writes at most once, and only the table that
    came out of the reprojection and of the assignment of the coordinate
    system, to the path [directory/filename] with the driver
    "ESRI Shapefile".  When either step raises nothing is written. *)
Theorem shapefile_is_written_after_reprojection
    geo_df crs directory filename w written path driver :
  (written, path, driver)
    ∈ omap written_shapefile
        (trace (create_shapefile perform geo_df crs directory filename w)) →
  omap written_shapefile
    (trace (create_shapefile perform geo_df crs directory filename w))
  = [(written, directory +:+ "/" +:+ filename, "ESRI Shapefile")]
  ∧ path = directory +:+ "/" +:+ filename
  ∧ driver = "ESRI Shapefile"
  ∧ ∃ reprojected w1 w2,
      perform (project_gdf geo_df crs false) w = (Return reprojected, w1)
      ∧ perform (set_crs reprojected crs) w1 = (Return written, w2).
Proof.
  unfold create_shapefile.
  run_calls perform; cbn [omap list_omap written_shapefile]; intros Hin;
    first [ by apply elem_of_nil in Hin
          | apply list_elem_of_singleton in Hin; simplify_eq; eauto 10 ].
Qed.




(** ** The highway branch *)

(** X8: the emissions are read for the segments they are joined with.
    Whenever the join is called, it gets the table
    [process_sumo_edges_emissions_file] returned for the network [readNet]
    read from [args.net_file] and for the identifiers of the highway table,
    and that very highway table; these four calls follow one another.  When
    the join returns, the table it returned is the one handed to the
    shapefile writer. *)
Theorem emissions_are_read_for_the_joined_segments a w emissions highways :
  (emissions, highways) ∈ omap joined (trace (main perform a w)) →
  ∃ pre post net w0 w1 w2 w3 r w4,
    trace (main perform a w)
    = pre
      ++ [Called (readNet (args.net_file a)) w0 (Return net) w1;
          Called (process_highway_data net) w1 (Return highways) w2;
          Called (process_sumo_edges_emissions_file (args.emissions_file a)
                    net (osmid_tolist highways))
            w2 (Return emissions) w3;
          Called (combine_sumo_emissions_and_highway_data emissions highways)
            w3 r w4]
      ++ post
    ∧ ∀ highway_emissions_gdf,
        r = Return highway_emissions_gdf →
        ∃ r' w5 post',
          post
          = [Printed "Creating shapefile...";
             Called (project_gdf highway_emissions_gdf
                       ("EPSG:" +:+ pretty (args.epsg a)) false)
               w4 r' w5]
            ++ post'.
Proof.
  destruct (main_blocks perform a w)
    as (tb & tw & th & tm & tg & td & -> & Hb & Hw & Hh & Hm & Hg & Hd).
  silent joined in Hb. silent joined in Hw. silent joined in Hm.
  silent joined in Hg.
  rewrite !omap_app, Hb, Hw, Hm, Hg.
  rewrite (modules_silent perform joined) by (by intros []).
  rewrite (diagnostic_silent joined td) by done.
  rewrite app_nil_r. cbn [app].
  destruct Hh as [->|(w' & ->)]; [by intros ?%elem_of_nil|].
  unfold main_highway, create_shapefile.
  destruct (py_in _ _); [|by intros ?%elem_of_nil].
  run_calls perform; cbn [omap list_omap joined]; intros Hin;
    first [ by apply elem_of_nil in Hin
          | apply list_elem_of_singleton in Hin; simplify_eq ].
  all: eexists (trace (main_modules perform a (location_of a) w) ++ tb ++ tw),
         _, _, _, _, _, _, _, _;
    split; [rewrite <- !app_assoc; cbn [app]; reflexivity|];
    intros g Hg'; simplify_eq; by eexists _, _, _.
Qed.

(** ** The GRAL parameters *)

(** X10: the two views of the vertical layers agree, and so do the two
    uses of the pollutant: in every run the number of horizontal slices
    given to [create_greb_file] is the length of the list of layers given to
    [create_in_dat_file], and [create_other_txt_requiered_files] and
    [create_line_emissions_file] get the same pollutant. *)
Theorem layers_and_pollutant_agree a w :
  (∀ slices layers,
     slices ∈ omap greb_slices (trace (main perform a w)) →
     layers ∈ omap in_dat_layers (trace (main perform a w)) →
     slices = Z.of_nat (length layers))
  ∧ (∀ p q,
       p ∈ omap stage_pollutant (trace (main perform a w)) →
       q ∈ omap stage_pollutant (trace (main perform a w)) →
       p = q).
Proof.
  destruct (main_blocks perform a w)
    as (tb & tw & th & tm & tg & td & -> & Hb & Hw & Hh & Hm & Hg & Hd).
  assert (∀ B (f : event W Net → option B),
            (∀ ev, stage_of ev = None → f ev = None) →
            omap f (trace (main_modules perform a (location_of a) w)
                    ++ tb ++ tw ++ th ++ tm ++ tg ++ td)
            = omap f tg) as Hview.
  { intros B f Hf.
    pose proof Hb as Hb'. pose proof Hw as Hw'. pose proof Hh as Hh'.
    pose proof Hm as Hm'.
    apply (part_silent f) in Hb', Hw', Hh', Hm'.
    - rewrite !omap_app, Hb', Hw', Hh', Hm'.
      rewrite (modules_silent perform f) by (intros [] ????; by apply Hf).
      rewrite (diagnostic_silent f td) by (intros; by apply Hf) || done.
      by rewrite app_nil_r.
    - unfold main_map. emits_rules ltac:(by apply Hf).
    - unfold main_highway. emits_rules ltac:(by apply Hf).
    - unfold main_weather. emits_rules ltac:(by apply Hf).
    - unfold main_buildings. emits_rules ltac:(by apply Hf). }
  rewrite (Hview _ greb_slices), (Hview _ in_dat_layers),
    (Hview _ stage_pollutant) by (by intros [[] ? ? ?|?]).
  clear Hview.
  destruct Hg as [->|(w' & ->)];
    [split; intros ? ? []%elem_of_nil|].
  unfold main_gral.
  destruct (py_in _ _); [|split; intros ? ? []%elem_of_nil].
  run_calls perform;
    cbn [omap list_omap greb_slices in_dat_layers stage_pollutant];
    (split; intros x y Hx Hy;
     repeat (apply elem_of_cons in Hx as [->|Hx]);
     repeat (apply elem_of_cons in Hy as [->|Hy]);
     try (by apply elem_of_nil in Hx); try (by apply elem_of_nil in Hy);
     reflexivity).
Qed.

(** ** The diagnostic of [main] *)

Lemma main_body_prints_no_diagnostic a :
  emits (λ ev, ∀ e, ev ≠ Printed ("An error occurred: " +:+ str e))
    (main_body perform a).
Proof.
  unfold main_body, main_modules, main_buildings, main_weather, main_highway,
    main_map, main_gral. cbv zeta.
  emits_rules ltac:(intros ? [= Hline]; cbn [String.append] in Hline;
                    discriminate).
Qed.

(** X11: [main] prints its line "An error occurred: ..." exactly when a
    call raised an instance of [Exception] to its body, and then as the
    last thing it does.  An exception of another class that reaches the
    body is not reported: the raising call is the last event and [main]
    raises the exception to its caller.  A run in which no call raises to
    the body returns and never prints that line, whatever failed inside
    [create_shapefile]. *)
Theorem error_line_iff_exception_reached_main a w :
  ((∃ ev e, ev ∈ trace (main perform a w)
            ∧ raised_to_main ev = Some e ∧ is_Exception e = true)
   ↔ ∃ e, last (trace (main perform a w))
          = Some (Printed ("An error occurred: " +:+ str e)))
  ∧ (∀ ev e,
       ev ∈ trace (main perform a w) →
       raised_to_main ev = Some e →
       is_Exception e = false →
       last (trace (main perform a w)) = Some ev
       ∧ result (main perform a w) = Raise e)
  ∧ (no_exception_reached_main (trace (main perform a w)) = true →
     result (main perform a w) = Return tt
     ∧ ∀ e, Printed ("An error occurred: " +:+ str e)
            ∉ trace (main perform a w)).
Proof.
  pose proof (main_body_prints_no_diagnostic a w) as Hlines.
  rewrite Forall_forall in Hlines.
  split; [split|split].
  - intros (ev & e & (pre & post & Htr)%list_elem_of_split & Hev & He).
    destruct (main_handles perform _ _ _ _ _ _ Htr Hev) as [_ Hend].
    rewrite He in Hend. destruct Hend as [_ ->].
    exists e. rewrite Htr.
    change (pre ++ ev :: [Printed ("An error occurred: " +:+ str e)])
      with (pre ++ [ev] ++ [Printed ("An error occurred: " +:+ str e)]).
    rewrite app_assoc. apply last_snoc.
  - intros (e & Hlast). revert Hlast. unfold main.
    rewrite trace_try_except.
    pose proof (fail_fast_main_body perform a w) as Hff.
    destruct (result (main_body perform a w)) as [[]|e'].
    + rewrite app_nil_r. intros Hlast%last_Some_elem_of.
      by destruct (Hlines _ Hlast e).
    + destruct Hff as (pre & ev & Htr & Hev & _).
      destruct (is_Exception e') eqn:He'.
      * intros _. exists ev, e'. rewrite Htr. split; [|done].
        rewrite !elem_of_app. left. right. apply list_elem_of_here.
      * rewrite app_nil_r. intros Hlast%last_Some_elem_of.
        by destruct (Hlines _ Hlast e).
  - intros ev e (pre & post & Htr)%list_elem_of_split Hev He.
    destruct (main_handles perform _ _ _ _ _ _ Htr Hev) as [_ Hend].
    rewrite He in Hend. destruct Hend as [-> ->].
    split; [|done]. rewrite Htr. apply last_snoc.
  - intros Hquiet%quiet_main_body_returns.
    rewrite main_result, Hquiet. split; [done|].
    unfold main. rewrite trace_try_except, Hquiet, app_nil_r.
    intros e Hin. by destruct (Hlines _ Hin e).
Qed.

End Flows.

(** ** The mean latitude *)

Section Latitude.

Lemma float_add_comm (x y : float) : Float64.add x y = Float64.add y x.
Proof.
  unfold Float64.add, SFadd.
  destruct x as [sx|sx| |sx mx ex], y as [sy|sy| |sy my ey];
    try reflexivity; try (by destruct sx, sy).
  by rewrite Z.min_comm, Z.add_comm.
Qed.

(** X9: the latitude given to the in.dat stage does not depend on which
    of the two latitudes is called north: exchanging [north] and [south]
    gives the same float, bit for bit. *)
Theorem mean_latitude_is_symmetric (n s e w : float) :
  mean_latitude {| north := n; south := s; east := e; west := w |}
  = mean_latitude {| north := s; south := n; east := e; west := w |}.
Proof. unfold mean_latitude. cbn [north south]. by rewrite float_add_comm. Qed.

End Latitude.

(** ** More runs on the concrete environment *)

Module Runs.

(** A mode [main] does not know. *)
Definition unknown_run : run Example.disk unit unit :=
  main (Example.perform Example.to_metres Example.no_fault)
    (Example.scenario "everything") [].

Definition highway_run : run Example.disk unit unit :=
  main (Example.perform Example.to_metres Example.no_fault)
    (Example.scenario "highway") [].

(** The scenario in mode "weather" with an hour and no day. *)
Definition hour_only : args.t :=
  {| args.north := Float64.literal 101 1;
     args.south := Float64.literal 100 1;
     args.east := Float64.literal 201 1;
     args.west := Float64.literal 200 1;
     args.base_directory := "out";
     args.met_file := "weather.met";
     args.buildings_shapefile_filename := "buildings.shp";
     args.highways_shapefile_filename := "highways.shp";
     args.process := "weather";
     args.epsg := 32633;
     args.input_weather_file := "observations.csv";
     args.output_weather_file := "weather";
     args.weather_day := None;
     args.weather_hour := Some 14;
     args.net_file := "osm.net.xml";
     args.emissions_file := "edges-emissions.xml";
     args.map_filename := "map.tif" |}.

Definition hour_only_run : run Example.disk unit unit :=
  main (Example.perform Example.to_metres Example.no_fault) hour_only [].

(** A run of [create_shapefile] in which every call returns. *)
Definition write : run Example.disk unit unit :=
  create_shapefile (Example.perform Example.to_metres Example.no_fault)
    Example.segments "EPSG:32633" "out" "highways.shp" [].

End Runs.

Lemma modules_are_built_first_witness :
  after_construction
    (default (Printed "") (trace Example.complete_run !! 5%nat)) = true
  ∧ ∃ w1 w2 w3 w4 w5 rest,
      trace Example.complete_run
      = [Called (new_Buildings (location_of (Example.scenario "gral"))) []
           (Return tt) w1;
         Called (new_Weather "out") w1 (Return tt) w2;
         Called (new_Highways (location_of (Example.scenario "gral"))) w2
           (Return tt) w3;
         Called (new_Maps "out") w3 (Return tt) w4;
         Called (new_GRAL "out" "weather.met" "buildings.shp" "highways.shp")
           w4 (Return tt) w5]
        ++ rest.
Proof.
  split; [by vm_compute|].
  apply (modules_are_built_first
           (Example.perform Example.to_metres Example.no_fault)
           (Example.scenario "gral") []
           (default (Printed "") (trace Example.complete_run !! 5%nat)));
    [|by vm_compute].
  apply (list_elem_of_lookup_2 _ 5%nat). by vm_compute.
Defined.

Lemma unknown_mode_is_silent_witness :
  py_in "everything" ["all"; "buildings"; "weather"; "highway"; "map"; "gral"]
  = false
  ∧ every_call_returned (trace Runs.unknown_run) = true
  ∧ omap printed (trace Runs.unknown_run) = []
  ∧ length (trace Runs.unknown_run) = 5%nat
  ∧ world Runs.unknown_run = [].
Proof.
  split; [reflexivity|]. split; [by vm_compute|].
  destruct (unknown_mode_is_silent
              (Example.perform Example.to_metres Example.no_fault)
              (Example.scenario "everything") [] eq_refl)
    as [_ Hsilent].
  destruct Hsilent as (Hprinted & Hlength & Hworld); [by vm_compute|].
  split; [exact Hprinted|]. split; [exact Hlength|].
  etrans; [exact Hworld|by vm_compute].
Defined.

Lemma single_branch_modes_witness :
  no_exception_reached_main (trace Example.map_run) = true
  ∧ MapBranch ∈ branches (trace Example.map_run)
  ∧ (∀ b, b ∈ branches (trace Example.map_run) → b = MapBranch)
  ∧ Forall (λ ev, shapefile_call ev = false) (trace Example.map_run).
Proof.
  destruct (single_branch_modes
              (Example.perform Example.to_metres Example.no_fault)
              (Example.scenario "map") [] MapBranch)
    as (Hruns & Hbranches & _ & Hshapefile).
  - do 3 apply list_elem_of_further. apply list_elem_of_here.
  - split; [by vm_compute|]. split; [apply Hruns; by vm_compute|].
    split; [exact Hbranches|]. apply Hshapefile. by right.
Defined.

Lemma hour_slice_needs_a_day_witness :
  args.weather_day Runs.hour_only = None
  ∧ args.weather_hour Runs.hour_only = Some 14
  ∧ omap weather_tables (trace Runs.hour_only_run)
    = [(Example.weather, Example.weather)]
  ∧ no_exception_reached_main (trace Runs.hour_only_run) = true
  ∧ omap written_frame (trace Runs.hour_only_run)
    = [("weather.csv", Example.weather); ("weather.met", Example.weather)].
Proof.
  assert (omap weather_tables (trace Runs.hour_only_run)
          = [(Example.weather, Example.weather)]) as Htables
    by (by vm_compute).
  split; [reflexivity|]. split; [reflexivity|]. split; [exact Htables|].
  split; [by vm_compute|].
  destruct (hour_slice_needs_a_day
              (Example.perform Example.to_metres Example.no_fault)
              Runs.hour_only []) as [_ Hwritten].
  destruct (Hwritten Example.weather Example.weather) as [Hwhole _].
  - unfold Runs.hour_only_run in Htables. rewrite Htables.
    apply list_elem_of_here.
  - destruct (Hwhole eq_refl) as [_ Hall]. apply Hall. by vm_compute.
Defined.

Lemma shapefile_is_written_after_reprojection_witness :
  omap written_shapefile (trace Runs.write)
  = [(Example.segments, "out/highways.shp", "ESRI Shapefile")]
  ∧ ∃ reprojected w1 w2,
      Example.perform Example.to_metres Example.no_fault
        (project_gdf Example.segments "EPSG:32633" false) []
      = (Return reprojected, w1)
      ∧ Example.perform Example.to_metres Example.no_fault
          (set_crs reprojected "EPSG:32633") w1
        = (Return Example.segments, w2).
Proof.
  destruct (shapefile_is_written_after_reprojection
              (Example.perform Example.to_metres Example.no_fault)
              Example.segments "EPSG:32633" "out" "highways.shp" []
              Example.segments "out/highways.shp" "ESRI Shapefile")
    as (Hwritten & _ & _ & Hsteps).
  - assert (omap written_shapefile (trace Runs.write)
            = [(Example.segments, "out/highways.shp", "ESRI Shapefile")])
      as Hrun by (by vm_compute).
    unfold Runs.write in Hrun. rewrite Hrun. apply list_elem_of_here.
  - split; [exact Hwritten|exact Hsteps].
Defined.

Lemma emissions_are_read_for_the_joined_segments_witness :
  ∃ pre post net w0 w1 w2 w3 r w4,
    trace Runs.highway_run
    = pre
      ++ [Called (readNet "osm.net.xml") w0 (Return net) w1;
          Called (process_highway_data net) w1 (Return []) w2;
          Called (process_sumo_edges_emissions_file "edges-emissions.xml" net
                    (osmid_tolist []))
            w2 (Return []) w3;
          Called (combine_sumo_emissions_and_highway_data [] []) w3 r w4]
      ++ post
    ∧ ∀ highway_emissions_gdf,
        r = Return highway_emissions_gdf →
        ∃ r' w5 post',
          post
          = [Printed "Creating shapefile...";
             Called (project_gdf highway_emissions_gdf
                       ("EPSG:" +:+ pretty (32633 : Z)) false)
               w4 r' w5]
            ++ post'.
Proof.
  apply (emissions_are_read_for_the_joined_segments
           (Example.perform Example.to_metres Example.no_fault)
           (Example.scenario "highway") [] [] []).
  assert (omap joined (trace Runs.highway_run) = [([], [])])
    as Hrun by (by vm_compute).
  unfold Runs.highway_run in Hrun. rewrite Hrun. apply list_elem_of_here.
Defined.

Lemma layers_and_pollutant_agree_witness :
  omap greb_slices (trace Example.complete_run) = [5]
  ∧ omap in_dat_layers (trace Example.complete_run) = [[3; 6; 9; 12; 15]]
  ∧ 5 = Z.of_nat (length [3; 6; 9; 12; 15]).
Proof.
  assert (omap greb_slices (trace Example.complete_run) = [5])
    as Hslices by (by vm_compute).
  assert (omap in_dat_layers (trace Example.complete_run)
          = [[3; 6; 9; 12; 15]]) as Hlayers by (by vm_compute).
  split; [exact Hslices|]. split; [exact Hlayers|].
  destruct (layers_and_pollutant_agree
              (Example.perform Example.to_metres Example.no_fault)
              (Example.scenario "gral") []) as [Hagree _].
  unfold Example.complete_run in Hslices, Hlayers.
  apply Hagree; [rewrite Hslices|rewrite Hlayers]; apply list_elem_of_here.
Defined.

Lemma error_line_iff_exception_reached_main_witness :
  (raised_to_main (default (Printed "") (trace Example.failed_run !! 7%nat))
   = Some Example.disk_full
   ∧ is_Exception Example.disk_full = true
   ∧ ∃ e, last (trace Example.failed_run)
          = Some (Printed ("An error occurred: " +:+ str e)))
  ∧ (raised_to_main
       (default (Printed "") (trace Example.interrupted_run !! 7%nat))
     = Some Example.interrupted
     ∧ is_Exception Example.interrupted = false
     ∧ last (trace Example.interrupted_run)
       = Some (default (Printed "") (trace Example.interrupted_run !! 7%nat))
     ∧ result Example.interrupted_run = Raise Example.interrupted)
  ∧ (no_exception_reached_main (trace Example.all_run) = true
     ∧ result Example.all_run = Return tt).
Proof.
  split; [|split].
  - split; [by vm_compute|]. split; [reflexivity|].
    destruct (error_line_iff_exception_reached_main
                (Example.perform Example.to_metres Example.greb_fails)
                (Example.scenario "gral") []) as [[Hprinted _] _].
    apply Hprinted.
    exists (default (Printed "") (trace Example.failed_run !! 7%nat)),
      Example.disk_full.
    split; [|by vm_compute].
    apply (list_elem_of_lookup_2 _ 7%nat). by vm_compute.
  - split; [by vm_compute|]. split; [reflexivity|].
    destruct (error_line_iff_exception_reached_main
                (Example.perform Example.to_metres Example.greb_interrupted)
                (Example.scenario "gral") []) as (_ & Hpassed & _).
    apply Hpassed; [|by vm_compute..].
    apply (list_elem_of_lookup_2 _ 7%nat). by vm_compute.
  - split; [by vm_compute|].
    destruct (error_line_iff_exception_reached_main
                (Example.perform Example.to_metres Example.to_file_fails)
                (Example.scenario "all") []) as (_ & _ & [Hreturns _]).
    + by vm_compute.
    + exact Hreturns.
Defined.
